(** * Workload agent: supervisor gates, process-discovery fan-out and
      insight shipping

    A shallow embedding of the Go sources of the workload agent
    ([internal/servicecommunication/discovery], [internal/daemon/oracle],
    [internal/workloadmanager]) together with models of the Postgres and
    MySQL collectors, followed by the properties established about them.

    Conventions of the embedding:
    - a Go [error] is a message string, a nilable error is [option error];
    - a Go pair [(T, error)] whose two halves are set independently is a
      pair [T * option error]; a fallible lookup is a [result];
    - a Go slice is [slice A = option (list A)], [None] being the nil slice;
    - goroutines, tickers and the context are replaced by explicit scripts:
      what the environment delivers at each suspension point is an input of
      the function, and the log lines and sends it performs are returned as
      a trace. *)

From Stdlib Require Import ZArith NArith String Ascii List Bool Lia.
From Stdlib Require Import DecimalString DecimalN.
From stdpp Require Import base option list strings gmap.

Open Scope string_scope.
Open Scope list_scope.
Open Scope nat_scope.

(** ** Go basics *)

Module Go.

Definition error := string.

Inductive result (A : Type) : Type :=
| Ok (a : A)
| Err (e : error).
Arguments Ok {A} a.
Arguments Err {A} e.

(** A slice is nil ([None]) or a backing list. *)
Definition slice (A : Type) := option (list A).

(** [len(s)]: zero for the nil slice. *)
Definition len {A} (s : slice A) : nat :=
  match s with
  | None => 0
  | Some l => length l
  end.

(** The elements visited by [for _, x := range s]. *)
Definition range {A} (s : slice A) : list A :=
  match s with
  | None => []
  | Some l => l
  end.

(** [time.Duration]: signed nanoseconds. *)
Definition Duration := Z.
Definition Second : Duration := 1000000000%Z.
Definition Hour : Duration := (3600 * Second)%Z.

End Go.
Export Go.

(** ** protos/configuration *)

Module cpb.

Record OracleDiscovery := {
  OracleDiscovery_Enabled : bool;
  OracleDiscovery_UpdateFrequency : option Duration
}.

Record OracleMetrics := {
  OracleMetrics_Enabled : bool;
  OracleMetrics_CollectionFrequency : option Duration
}.

(** [Enabled] is an optional bool ([*bool]): unset, true or false. *)
Record OracleConfiguration := {
  Enabled : option bool;
  oracle_discovery : option OracleDiscovery;
  oracle_metrics : option OracleMetrics
}.

Record CommonDiscovery := {
  CollectionFrequency : option Duration
}.

Record CloudProperties := {
  ProjectId : string;
  InstanceId : string;
  InstanceName : string;
  Region : string;
  Zone : string
}.

Record Configuration := {
  oracle_configuration : option OracleConfiguration;
  common_discovery : option CommonDiscovery;
  cloud_properties : option CloudProperties;
  DataWarehouseEndpoint : string
}.

(** The generated getters are nil-safe: on an absent message they return
    the zero value. *)
Definition GetOracleConfiguration (c : option Configuration)
  : option OracleConfiguration :=
  c ≫= oracle_configuration.

Definition GetCommonDiscovery (c : option Configuration)
  : option CommonDiscovery :=
  c ≫= common_discovery.

Definition GetCloudProperties (c : option Configuration)
  : option CloudProperties :=
  c ≫= cloud_properties.

Definition GetEnabled (oc : option OracleConfiguration) : bool :=
  match oc with
  | Some {| Enabled := Some b |} => b
  | _ => false
  end.

Definition GetOracleDiscovery (oc : option OracleConfiguration)
  : option OracleDiscovery :=
  oc ≫= oracle_discovery.

Definition GetOracleMetrics (oc : option OracleConfiguration)
  : option OracleMetrics :=
  oc ≫= oracle_metrics.

Definition GetDiscoveryEnabled (d : option OracleDiscovery) : bool :=
  match d with
  | Some d => OracleDiscovery_Enabled d
  | None => false
  end.

Definition GetMetricsEnabled (m : option OracleMetrics) : bool :=
  match m with
  | Some m => OracleMetrics_Enabled m
  | None => false
  end.

Definition GetCollectionFrequency (c : option CommonDiscovery)
  : option Duration :=
  c ≫= CollectionFrequency.

Definition GetProjectId (cp : option CloudProperties) : string :=
  from_option ProjectId "" cp.
Definition GetInstanceId (cp : option CloudProperties) : string :=
  from_option InstanceId "" cp.
Definition GetInstanceName (cp : option CloudProperties) : string :=
  from_option InstanceName "" cp.
Definition GetRegion (cp : option CloudProperties) : string :=
  from_option Region "" cp.

End cpb.

(** ** internal/servicecommunication *)

Module servicecommunication.

(** Modelled from the spec: the package [servicecommunication] is not
    among the sources; its declarations are reconstructed from their uses
    in [discovery.go] and [oracle.go] and from the data model of the
    specification.  A process handle exposes its lookups as fallible
    results. *)
Record ProcessWrapper := {
  Username : result string;
  Pid : Z;
  Name : result string;
  CmdlineSlice : result (list string);
  Environ : result (list string)
}.

(** Modelled from the spec: [DiscoveryResult] of the absent package,
    "DiscoveryResult{processes: [...]}". *)
Record DiscoveryResult := {
  Processes : slice ProcessWrapper
}.

(** Modelled from the spec: the two origins the services name, and any
    other value of the underlying integer type. *)
Inductive MessageOrigin :=
| Discovery
| DWActivation
| OtherOrigin (code : Z).

(** Modelled from the spec: [Message] of the absent package, with the
    fields [Origin] and [DiscoveryResult] (here [Result]) that the sources
    read and write. *)
Record Message := {
  Origin : MessageOrigin;
  Result : DiscoveryResult
}.

(** Modelled from the spec: [HasAnyPrefix(s, prefixes)] holds when one of
    [prefixes] is a prefix of [s] ("scans names against the prefix
    set"). *)
Definition HasAnyPrefix (s : string) (prefixes : list string) : bool :=
  existsb (fun p => String.prefix p s) prefixes.

End servicecommunication.

(** ** internal/servicecommunication/discovery *)

Module discovery.
Import servicecommunication.

(** A subscriber channel [chan<- *Message] as seen by the sender: its
    capacity and the messages buffered and not yet received.  Receivers
    are represented by the environment removing messages from the front
    of the buffer between two rounds.  Every subscriber owns a channel of
    capacity at least one; on such a channel a receiver can only be
    waiting while the buffer is empty, so a send can proceed exactly when
    the buffer has room. *)
Record Chan := {
  capacity : nat;
  buffer : list Message
}.

(** The send case of [select { case ch <- m: default: }] is ready when
    the buffer has room.  This is the readiness of a channel of capacity
    at least one; a channel of capacity zero is also ready while a
    receiver waits on it, which this test does not tell, so statements
    about the sends take the capacities to be at least one. *)
Definition full (ch : Chan) : bool := capacity ch <=? length (buffer ch).

(** The send going through. *)
Definition enqueue (m : Message) (ch : Chan) : Chan :=
  {| capacity := capacity ch; buffer := buffer ch ++ [m] |}.

(** The subscriber taking [n] messages off the channel. *)
Definition receive (n : nat) (ch : Chan) : Chan :=
  {| capacity := capacity ch; buffer := drop n (buffer ch) |}.

(** The argument [a any] of a routine: the slice of subscriber channels,
    a value of another type, or nil. *)
Inductive any :=
| ChanSlice (chs : list Chan)
| OtherArg
| NilArg.

(** The observable steps of the routine: its log lines and, for each
    channel, the send that went through or was skipped. *)
Inductive Event :=
| LogStarted
| LogBadArgs
| LogFailed (err : error)
| LogFound (n : nat)
| Sent (i : nat) (m : Message)
| Skipped (i : nat) (m : Message)
| LogFullChs (n : nat)
| LogCancelled
| LogTickerFired.

(** How the routine left the loop; [StillRunning] when the script ends
    before the routine does. *)
Inductive Exit :=
| ExitBadArgs
| PanicNilArgument
| PanicNonPositiveInterval
| ExitDiscoveryFailed (err : error)
| ExitCancelled
| StillRunning.

(** [ProcessLister.listAllProcesses] is an interface method: each call
    yields whatever the host reports at that moment. *)
Definition Listing : Type := slice ProcessWrapper * option error.

(** [commonDiscoveryLoop(ctx)], given what the lister returns. *)
Definition commonDiscoveryLoop (listing : Listing)
  : DiscoveryResult * option error :=
  let '(processes, err) := listing in
  match err with
  | Some e => ({| Processes := None |}, Some e)
  | None =>
      if len processes <? 1
      then ({| Processes := None |}, Some "no processes found")
      else ({| Processes := processes |}, None)
  end.

(** The body of [for _, ch := range chs { select { ... } }], threading
    [fullChs]; [i] is the index of the head of [chs]. *)
Fixpoint sendAll (i : nat) (r : DiscoveryResult) (chs : list Chan)
    (fullChs : nat) : list Chan * list Event * nat :=
  match chs with
  | [] => ([], [], fullChs)
  | ch :: rest =>
      let m := {| Origin := Discovery; Result := r |} in
      if full ch
      then
        let '(chs', evs, n) := sendAll (S i) r rest (S fullChs) in
        (ch :: chs', Skipped i m :: evs, n)
      else
        let '(chs', evs, n) := sendAll (S i) r rest fullChs in
        (enqueue m ch :: chs', Sent i m :: evs, n)
  end.

(** What the final [select] of an iteration observes. *)
Inductive Wake :=
| CtxDone
| Tick.

(** One iteration of the environment: the messages each subscriber has
    received since the previous iteration, the host's process listing,
    and what wakes the final [select]. *)
Record Round := {
  received : list nat;
  listing : Listing;
  wake : Wake
}.

(** The subscribers' receives, channel by channel; a channel the script
    says nothing about keeps its buffer. *)
Definition receiveAll (ns : list nat) (chs : list Chan) : list Chan :=
  zip_with receive (ns ++ replicate (length chs - length ns) 0) chs.

Record Run := {
  chans : list Chan;
  events : list Event;
  exit : Exit
}.

(** [if fullChs > 0 { log ... }] *)
Definition logFull (fullChs : nat) : list Event :=
  if 0 <? fullChs then [LogFullChs fullChs] else [].

(** The [for] loop of [CommonDiscovery], run against a script. *)
Fixpoint rounds (script : list Round) (chs : list Chan) : Run :=
  match script with
  | [] => {| chans := chs; events := []; exit := StillRunning |}
  | rd :: script' =>
      let chs := receiveAll (received rd) chs in
      match commonDiscoveryLoop (listing rd) with
      | (_, Some err) =>
          {| chans := chs; events := [LogFailed err];
             exit := ExitDiscoveryFailed err |}
      | (discoveryResult, None) =>
          let '(chs', sends, fullChs) := sendAll 0 discoveryResult chs 0 in
          let evs := LogFound (len (Processes discoveryResult))
                       :: sends ++ logFull fullChs in
          match wake rd with
          | CtxDone =>
              {| chans := chs'; events := evs ++ [LogCancelled];
                 exit := ExitCancelled |}
          | Tick =>
              let run := rounds script' chs' in
              {| chans := chans run;
                 events := evs ++ LogTickerFired :: events run;
                 exit := exit run |}
          end
      end
  end.

Record Service := {
  Config : option cpb.Configuration
}.

(** The ticker period: three hours unless the configuration sets one. *)
Definition frequency (d : Service) : Duration :=
  match cpb.GetCollectionFrequency (cpb.GetCommonDiscovery (Config d)) with
  | Some f => f
  | None => (3 * Hour)%Z
  end.

(** [CommonDiscovery(ctx, a)].  On an argument of another type the
    routine logs a warning and returns; the warning is built with
    [reflect.TypeOf(a).Kind()], which panics when [a] is nil.
    [time.NewTicker] panics on a period that is not positive. *)
Definition CommonDiscovery (d : Service) (a : any) (script : list Round)
  : Run :=
  match a with
  | OtherArg =>
      {| chans := []; events := [LogStarted; LogBadArgs];
         exit := ExitBadArgs |}
  | NilArg =>
      {| chans := []; events := [LogStarted]; exit := PanicNilArgument |}
  | ChanSlice chs =>
      if (frequency d <=? 0)%Z
      then {| chans := chs; events := [LogStarted];
              exit := PanicNonPositiveInterval |}
      else
        let run := rounds script chs in
        {| chans := chans run; events := LogStarted :: events run;
           exit := exit run |}
  end.

End discovery.

(** ** internal/daemon/oracle *)

Module oracle.
Import servicecommunication.

(** The two functions [Start] hands to a recoverable routine; the
    tickers of the service live in their bodies. *)
Inductive Routine :=
| runDiscovery
| runMetricCollection.

(** The usage-metric error codes the routines are registered with. *)
Inductive ErrorCode :=
| OracleDiscoverDatabaseFailure
| OracleMetricCollectionFailure.

(** [recovery.RecoverableRoutine], as [Start] fills it in. *)
Record RecoverableRoutine := {
  routine : Routine;
  errorCode : ErrorCode;
  ExpectedMinDuration : Duration
}.

(** The state of the service; [CommonCh] is replaced by the scripted
    arrivals and the mutex by the sequential order of the script. *)
Record Service := {
  Config : option cpb.Configuration;
  CloudProps : option cpb.CloudProperties;
  metricCollectionRoutine : option RecoverableRoutine;
  discoveryRoutine : option RecoverableRoutine;
  currentSIDs : slice string;
  isProcessPresent : bool;
  processes : slice ProcessWrapper
}.

(** Field updates. *)
Definition set_processes (ps : slice ProcessWrapper) (s : Service) :=
  {| Config := Config s; CloudProps := CloudProps s;
     metricCollectionRoutine := metricCollectionRoutine s;
     discoveryRoutine := discoveryRoutine s;
     currentSIDs := currentSIDs s;
     isProcessPresent := isProcessPresent s;
     processes := ps |}.

Definition set_isProcessPresent (b : bool) (s : Service) :=
  {| Config := Config s; CloudProps := CloudProps s;
     metricCollectionRoutine := metricCollectionRoutine s;
     discoveryRoutine := discoveryRoutine s;
     currentSIDs := currentSIDs s;
     isProcessPresent := b;
     processes := processes s |}.

Definition set_discoveryRoutine (r : RecoverableRoutine) (s : Service) :=
  {| Config := Config s; CloudProps := CloudProps s;
     metricCollectionRoutine := metricCollectionRoutine s;
     discoveryRoutine := Some r;
     currentSIDs := currentSIDs s;
     isProcessPresent := isProcessPresent s;
     processes := processes s |}.

Definition set_metricCollectionRoutine (r : RecoverableRoutine)
    (s : Service) :=
  {| Config := Config s; CloudProps := CloudProps s;
     metricCollectionRoutine := Some r;
     discoveryRoutine := discoveryRoutine s;
     currentSIDs := currentSIDs s;
     isProcessPresent := isProcessPresent s;
     processes := processes s |}.

Definition oraProcessPrefixes : list string := ["ora_pmon_"; "db_pmon_"].

(** [err == nil && HasAnyPrefix(name, oraProcessPrefixes)] *)
Definition isOracleProcess (p : ProcessWrapper) : bool :=
  match Name p with
  | Ok name => HasAnyPrefix name oraProcessPrefixes
  | Err _ => false
  end.

(** The scan [for _, p := range ps { if ... { s.isProcessPresent = true;
    break } }]. *)
Fixpoint scan (ps : list ProcessWrapper) (s : Service) : Service :=
  match ps with
  | [] => s
  | p :: rest =>
      if isOracleProcess p then set_isProcessPresent true s
      else scan rest s
  end.

(** The [switch msg.Origin] of [checkServiceCommunication]. *)
Definition handleMessage (msg : Message) (s : Service) : Service :=
  match Origin msg with
  | Discovery =>
      let s := set_processes (Processes (Result msg)) s in
      scan (range (Processes (Result msg))) s
  | DWActivation => s
  | OtherOrigin _ => s
  end.

(** What the [select] of [checkServiceCommunication] observes. *)
Inductive Arrival :=
| CtxDone
| Recv (msg : Message).

(** [checkServiceCommunication(ctx)]: [ctxErr] tells whether [ctx.Err()]
    is already set on entry. *)
Definition checkServiceCommunication (ctxErr : bool) (a : Arrival)
    (s : Service) : Service :=
  if ctxErr then s
  else
    match a with
    | CtxDone => s
    | Recv msg => handleMessage msg s
    end.

(** The goroutine [for { s.checkServiceCommunication(ctx) }] run on the
    messages that arrive while the context is live. *)
Definition inbound (msgs : list Message) (s : Service) : Service :=
  foldl (fun s msg => checkServiceCommunication false (Recv msg) s) s msgs.

(** The observable steps of [Start]: the goroutine it spawns, its log
    lines, its sleeps and the routines it starts. *)
Inductive Event :=
| GoCheckServiceCommunication
| LogEnabledUnset
| Sleep (d : Duration)
| LogWorkloadPresent
| LogDisabled
| LogLinuxOnly
| StartRoutine (r : RecoverableRoutine).

(** Where [Start] stands at the end of the script: it has returned, it
    waits in the final [select] for [ctx.Done()], it is still polling the
    presence flag, or it has panicked on the nil Oracle configuration. *)
Inductive Outcome :=
| Returned
| AwaitingCtxDone
| Polling
| PanicNilConfiguration.

Record Run := {
  service : Service;
  events : list Event;
  outcome : Outcome
}.

(** The routine values built at lines 86 and 98 of [oracle.go]. *)
Definition discoveryRoutineOf : RecoverableRoutine :=
  {| routine := runDiscovery;
     errorCode := OracleDiscoverDatabaseFailure;
     ExpectedMinDuration := (20 * Second)%Z |}.

Definition metricCollectionRoutineOf : RecoverableRoutine :=
  {| routine := runMetricCollection;
     errorCode := OracleMetricCollectionFailure;
     ExpectedMinDuration := (20 * Second)%Z |}.

(** [Start] from the platform check on (the part after the enabled
    gate). *)
Definition startLoops (GOOS : string) (s : Service) : Run :=
  if negb (String.eqb GOOS "linux")
  then {| service := s; events := [LogLinuxOnly]; outcome := Returned |}
  else
    let '(s, evs1) :=
      if cpb.GetDiscoveryEnabled
           (cpb.GetOracleDiscovery (cpb.GetOracleConfiguration (Config s)))
      then (set_discoveryRoutine discoveryRoutineOf s,
            [StartRoutine discoveryRoutineOf])
      else (s, []) in
    let '(s, evs2) :=
      if cpb.GetMetricsEnabled
           (cpb.GetOracleMetrics (cpb.GetOracleConfiguration (Config s)))
      then (set_metricCollectionRoutine metricCollectionRoutineOf s,
            [StartRoutine metricCollectionRoutineOf])
      else (s, []) in
    {| service := s; events := evs1 ++ evs2; outcome := AwaitingCtxDone |}.

(** The loop [for !s.isProcessPresent { time.Sleep(5 * time.Second) }].
    The flag is written by the inbound goroutine; [arrivals] lists the
    messages that goroutine handles before each successive read of the
    flag.  The boolean returned tells whether the loop was left; it is
    [false] when the script ends with the flag still false. *)
Fixpoint poll (arrivals : list (list Message)) (s : Service)
  : list Event * Service * bool :=
  match arrivals with
  | [] => ([], s, false)
  | msgs :: rest =>
      let s := inbound msgs s in
      if isProcessPresent s then ([], s, true)
      else
        let '(evs, s', ok) := poll rest s in
        (Sleep (5 * Second)%Z :: evs, s', ok)
  end.

(** A run preceded by earlier events. *)
Definition prepend (evs : list Event) (r : Run) : Run :=
  {| service := service r; events := evs ++ events r;
     outcome := outcome r |}.

(** [Start(ctx, a)]. *)
Definition Start (GOOS : string) (arrivals : list (list Message))
    (s : Service) : Run :=
  prepend [GoCheckServiceCommunication]
    match cpb.GetOracleConfiguration (Config s) with
    | None => {| service := s; events := [];
                 outcome := PanicNilConfiguration |}
    | Some oc =>
        match cpb.Enabled oc with
        | None =>
            let '(evs, s', present) := poll arrivals s in
            if present
            then prepend (LogEnabledUnset :: evs ++ [LogWorkloadPresent])
                   (startLoops GOOS s')
            else {| service := s'; events := LogEnabledUnset :: evs;
                    outcome := Polling |}
        | Some _ =>
            if cpb.GetEnabled (Some oc) then startLoops GOOS s
            else {| service := s; events := [LogDisabled];
                    outcome := Returned |}
        end
    end.

End oracle.

(** ** sharedprotos/datawarehouse and sharedlibraries/gce/wlm *)

Module dwpb.

(** The values of the enum that the agent refers to. *)
Inductive TorsoValidation_WorkloadType :=
| TorsoValidation_WORKLOAD_TYPE_UNSPECIFIED
| TorsoValidation_MYSQL
| TorsoValidation_ORACLE
| TorsoValidation_REDIS.

Record TorsoValidation := {
  WorkloadType : TorsoValidation_WorkloadType;
  ValidationDetails : gmap string string;
  ProjectId : string;
  InstanceName : string;
  AgentVersion : string
}.

Record Insight := {
  InstanceId : string;
  torso_validation : TorsoValidation
}.

Record WriteInsightRequest := {
  insight : Insight
}.

End dwpb.

Module wlm.

Record WriteInsightResponse := {
  HTTPStatusCode : Z
}.

End wlm.

(** ** internal/workloadmanager *)

Module workloadmanager.

(** [type WorkloadType string] *)
Definition WorkloadType := string.

Definition UNKNOWN : WorkloadType := "UNKNOWN".
Definition ORACLE : WorkloadType := "ORACLE".
Definition MYSQL : WorkloadType := "MYSQL".
Definition REDIS : WorkloadType := "REDIS".
Definition POSTGRES : WorkloadType := "POSTGRES".
Definition MONGODB : WorkloadType := "MONGODB".

Record WorkloadMetrics := {
  WorkloadMetrics_WorkloadType : WorkloadType;
  Metrics : gmap string string
}.

(** The interface [WLMWriter]: an implementation is a state [W] with the
    one method, which returns a nilable response and a nilable error. *)
Class WLMWriter (W : Type) := WriteInsightAndGetResponse :
  W -> string -> string -> dwpb.WriteInsightRequest ->
  (option wlm.WriteInsightResponse * option error) * W.

Record SendDataInsightParams (W : Type) := {
  WLMetrics : WorkloadMetrics;
  CloudProps : option cpb.CloudProperties;
  WLMService : W
}.
Arguments WLMetrics {W}.
Arguments CloudProps {W}.
Arguments WLMService {W}.

(** The log lines and the usage-metric error of the shipper. *)
Inductive Event :=
| LogFailedToSend (err : error) (wt : WorkloadType)
| UsageError_DataWarehouseWriteInsightFailure
| LogSent (wt : WorkloadType).

Section WithAgentVersion.

(** [configuration.AgentVersion], a build-time constant. *)
Variable AgentVersion : string.

Definition workloadTypeMap
  : gmap WorkloadType dwpb.TorsoValidation_WorkloadType :=
  <[ORACLE := dwpb.TorsoValidation_ORACLE]>
  (<[MYSQL := dwpb.TorsoValidation_MYSQL]>
  (<[REDIS := dwpb.TorsoValidation_REDIS]>
  (<[UNKNOWN := dwpb.TorsoValidation_WORKLOAD_TYPE_UNSPECIFIED]> ∅))).

Definition createWriteInsightRequest (wm : WorkloadMetrics)
    (cp : option cpb.CloudProperties) : dwpb.WriteInsightRequest :=
  let workloadType :=
    match workloadTypeMap !! WorkloadMetrics_WorkloadType wm with
    | Some t => t
    | None => dwpb.TorsoValidation_WORKLOAD_TYPE_UNSPECIFIED
    end in
  {| dwpb.insight :=
       {| dwpb.InstanceId := cpb.GetInstanceId cp;
          dwpb.torso_validation :=
            {| dwpb.WorkloadType := workloadType;
               dwpb.ValidationDetails := Metrics wm;
               dwpb.ProjectId := cpb.GetProjectId cp;
               dwpb.InstanceName := cpb.GetInstanceName cp;
               dwpb.AgentVersion := AgentVersion |} |} |}.

Context {W : Type} `{!WLMWriter W}.

Definition QuietSendDataInsight (params : SendDataInsightParams W)
  : (option wlm.WriteInsightResponse * option error) * W :=
  let req :=
    createWriteInsightRequest (WLMetrics params) (CloudProps params) in
  WriteInsightAndGetResponse (WLMService params)
    (cpb.GetProjectId (CloudProps params))
    (cpb.GetRegion (CloudProps params)) req.

(** [SendDataInsight]: the response and error returned, the state of
    the client after the call, and the log and usage-metric events. *)
Definition SendDataInsight (params : SendDataInsightParams W)
  : (option wlm.WriteInsightResponse * option error) * W * list Event :=
  let req :=
    createWriteInsightRequest (WLMetrics params) (CloudProps params) in
  let '((res, err), w) :=
    WriteInsightAndGetResponse (WLMService params)
      (cpb.GetProjectId (CloudProps params))
      (cpb.GetRegion (CloudProps params)) req in
  match err with
  | Some e =>
      ((None, Some e), w,
       [LogFailedToSend e (WorkloadMetrics_WorkloadType (WLMetrics params));
        UsageError_DataWarehouseWriteInsightFailure])
  | None =>
      ((res, None), w,
       [LogSent (WorkloadMetrics_WorkloadType (WLMetrics params))])
  end.

End WithAgentVersion.

End workloadmanager.

(** ** The scripted data-warehouse client of the tests *)

Module gcefake.
Import workloadmanager.

(** The client of the platform library that the test tables configure:
    call [i] answers with the [i]-th response and the [i]-th error, and
    every call is recorded. *)
Record TestWLM := {
  WriteInsightResponses : list (option wlm.WriteInsightResponse);
  WriteInsightErrs : list (option error);
  WriteInsightCallCount : nat;
  WriteInsightArgs : list (string * string * dwpb.WriteInsightRequest)
}.

#[export] Instance TestWLM_writer : WLMWriter TestWLM :=
  fun w project location req =>
    let i := WriteInsightCallCount w in
    ((default None (WriteInsightResponses w !! i),
      default (Some "unexpected call") (WriteInsightErrs w !! i)),
     {| WriteInsightResponses := WriteInsightResponses w;
        WriteInsightErrs := WriteInsightErrs w;
        WriteInsightCallCount := S i;
        WriteInsightArgs :=
          WriteInsightArgs w ++ [(project, location, req)] |}).

End gcefake.

(** ** The database handle of the collectors *)

Module sql.

(** Modelled from the spec: [rowsInterface] of the collectors, absent
    from the sources and used by their test doubles: the rows not yet
    visited; [Next] moves to the head row and [Scan] yields its value or
    fails. *)
Definition rowsInterface := list (result string).

(** Modelled from the spec: [dbInterface] of the collectors, absent from
    the sources and implemented by the [testDB] of the tests:
    [QueryContext] answers a query text with a nilable result set and a
    nilable error. *)
Record dbInterface := {
  QueryContext : string -> option rowsInterface * option error;
  Ping : option error
}.

End sql.

(** ** strconv and strings *)

Module strconv.

(** [strconv.Itoa]: the decimal spelling of an integer. *)
Definition Itoa (z : Z) : string := NilZero.string_of_int (Z.to_int z).

(** Parsing of an unsigned decimal numeral: a non-empty run of digits. *)
Definition ParseUint (s : string) : option Z :=
  (fun d => Z.of_N (N.of_uint d)) <$> NilZero.uint_of_string s.

End strconv.

Module strings.

(** [strings.Split(s, sep)] for a one-character separator. *)
Fixpoint Split (s : string) (sep : ascii) : list string :=
  match s with
  | EmptyString => [EmptyString]
  | String c s' =>
      if Ascii.eqb c sep then EmptyString :: Split s' sep
      else
        match Split s' sep with
        | [] => [String c EmptyString]
        | x :: xs => String c x :: xs
        end
  end.

End strings.

(** ** internal/postgresmetrics *)

Module postgresmetrics.
Import sql workloadmanager.

(** Modelled from the spec: the metric key and the collector record of
    [postgresmetrics.go], which is not among the sources; the fields are
    those the test table sets. *)
Definition workMemKey : string := "work_mem".

Record PostgresMetrics (W : Type) := {
  Config : option cpb.Configuration;
  db : dbInterface;
  WLMClient : W
}.
Arguments Config {W}.
Arguments db {W}.
Arguments WLMClient {W}.

(** The events of a tick: those of the shipper and the log line on the
    response. *)
Inductive Event :=
| Shipper (e : workloadmanager.Event)
| LogNilResponse
| LogResponse (status : Z).

(** Modelled from the spec: the collector [postgresmetrics.go] is not
    among the sources (only its test table is).  The byte multiplier of
    a unit suffix: "multiplies by the appropriate power of 1024". *)
Definition unitBytes (suffix : string) : option Z :=
  if String.eqb suffix "kB" then Some 1024%Z
  else if String.eqb suffix "MB" then Some (1024 * 1024)%Z
  else if String.eqb suffix "GB" then Some (1024 * 1024 * 1024)%Z
  else None.

(** Modelled from the spec: the [work_mem] reading "is returned as a
    string suffixed with kB, MB, or GB; the engine parses the number and
    multiplies by the appropriate power of 1024". *)
Definition parseWorkMem (s : string) : result Z :=
  let n := String.length s in
  let number := substring 0 (n - 2) s in
  let suffix := substring (n - 2) 2 s in
  match unitBytes suffix with
  | None => Err "unsupported work_mem unit"
  | Some k =>
      match strconv.ParseUint number with
      | None => Err "invalid work_mem value"
      | Some v => Ok (v * k)%Z
      end
  end.

(** Modelled from the spec: [workMem] runs [SHOW work_mem] and reads the
    first row; a query error, a missing row or a scan error is an
    error. *)
Definition workMem {W} (m : PostgresMetrics W) : result Z :=
  match QueryContext (db m) "SHOW work_mem" with
  | (_, Some e) => Err e
  | (None, None) => Err "no result set"
  | (Some [], None) => Err "no rows"
  | (Some (Err e :: _), None) => Err e
  | (Some (Ok v :: _), None) => parseWorkMem v
  end.

Section WithAgentVersion.

Variable AgentVersion : string.
Context {W : Type} `{!WLMWriter W}.

(** Modelled from the spec: [CollectMetricsOnce] collects [work_mem]
    into a [WorkloadMetrics] of type [POSTGRES] and ships it with
    [SendDataInsight].  A collection error or a shipment error is
    returned as the error of the tick; a nil response with a nil error
    is logged and the metrics are returned. *)
Definition CollectMetricsOnce (m : PostgresMetrics W)
  : (option WorkloadMetrics * option error) * W * list Event :=
  match workMem m with
  | Err e => ((None, Some e), WLMClient m, [])
  | Ok bytes =>
      let metrics :=
        {| WorkloadMetrics_WorkloadType := POSTGRES;
           Metrics := {[ workMemKey := strconv.Itoa bytes ]} |} in
      let '((res, err), w, evs) :=
        SendDataInsight AgentVersion
          {| WLMetrics := metrics;
             CloudProps := cpb.GetCloudProperties (Config m);
             WLMService := WLMClient m |} in
      match err, res with
      | Some e, _ => ((None, Some e), w, Shipper <$> evs)
      | None, None =>
          ((Some metrics, None), w, (Shipper <$> evs) ++ [LogNilResponse])
      | None, Some r =>
          ((Some metrics, None), w,
           (Shipper <$> evs) ++ [LogResponse (wlm.HTTPStatusCode r)])
      end
  end.

End WithAgentVersion.

End postgresmetrics.

(** ** internal/mysqlmetrics *)

Module mysqlmetrics.
Import sql.

(** Modelled from the spec: the two roles and the collector record of
    [mysqlmetrics.go], which is not among the sources ("the presence of
    any row is replica, otherwise source"). *)
Definition sourceRole : string := "source".
Definition replicaRole : string := "replica".

Record MySQLMetrics := {
  db : dbInterface
}.

(** Modelled from the spec: the interface [netInterface] of the resolver,
    with the three methods the [mockNetInterface] of the tests
    implements. *)
Record netInterface := {
  LookupHost : string -> slice string * option error;
  ParseIP : string -> option (list Z);
  LookupAddr : string -> slice string * option error
}.

(** Modelled from the spec: the result set a query makes available; a
    query has failed when it returns an error or no result set. *)
Definition resultSet (q : option rowsInterface * option error)
  : option rowsInterface :=
  match q with
  | (_, Some _) => None
  | (rows, None) => rows
  end.

(** Modelled from the spec: [rows.Next()] on a fresh result set, "the
    presence of any row". *)
Definition Next (rows : rowsInterface) : bool :=
  match rows with
  | [] => false
  | _ :: _ => true
  end.

(** Modelled from the spec: the collector [mysqlmetrics.go] is not among
    the sources (only its test tables are).  "Attempt SHOW REPLICA
    STATUS, fall back to SHOW SLAVE STATUS; the presence of any row is
    replica, otherwise source." *)
Definition currentRole (m : MySQLMetrics) : string :=
  match resultSet (QueryContext (db m) "SHOW REPLICA STATUS") with
  | Some rows => if Next rows then replicaRole else sourceRole
  | None =>
      match resultSet (QueryContext (db m) "SHOW SLAVE STATUS") with
      | Some rows => if Next rows then replicaRole else sourceRole
      | None => sourceRole
      end
  end.

(** Modelled from the spec: "attempt (a) to parse as an IP: if
    successful, resolve hostname via reverse DNS; (b) otherwise treat as
    hostname and resolve forward."  A failed lookup yields nothing. *)
Definition resolve (net : netInterface) (address : string)
  : option string :=
  match ParseIP net address with
  | Some _ =>
      match LookupAddr net address with
      | (_, Some _) => None
      | (names, None) => head (range names)
      end
  | None =>
      match LookupHost net address with
      | (_, Some _) => None
      | (_, None) => Some address
      end
  end.

(** Modelled from the spec: "extract the second dotted component of the
    resulting FQDN as the zone tag". *)
Definition zoneOf (fqdn : string) : option string :=
  strings.Split fqdn "." !! 1.

(** Modelled from the spec: the zone of one row of the replica list;
    "failures per address are logged and skipped". *)
Definition zoneOfRow (net : netInterface) (row : result string)
  : option string :=
  match row with
  | Err _ => None
  | Ok address => resolve net address ≫= zoneOf
  end.

Section WithQuery.

(** The text of the query that lists the connected replicas. *)
Variable replicationZonesQuery : string.

(** Modelled from the spec: "if role is source, read the list of
    currently connected replica addresses; for each entry [resolve and
    extract the zone]. Deduplicate [...]. Failures per address are
    logged and skipped, never fatal." *)
Definition replicationZones (m : MySQLMetrics) (role : string)
    (net : netInterface) : list string :=
  if negb (String.eqb role sourceRole) then []
  else
    match resultSet (QueryContext (db m) replicationZonesQuery) with
    | None => []
    | Some rows => remove_dups (omap (zoneOfRow net) rows)
    end.

End WithQuery.

End mysqlmetrics.

(** ** strings: the library functions of the override parser *)

Module strings_lib.

(** [strings.HasPrefix(s, prefix)] *)
Definition HasPrefix (s prefix : string) : bool := String.prefix prefix s.

(** [strings.Cut(s, sep)] for a one-character separator: the text before
    and after the first separator, or the whole text and the empty string
    when there is none. *)
Fixpoint Cut (s : string) (sep : ascii) : string * string * bool :=
  match s with
  | EmptyString => (EmptyString, EmptyString, false)
  | String c s' =>
      if Ascii.eqb c sep then (EmptyString, s', true)
      else
        let '(before, after, found) := Cut s' sep in
        (String c before, after, found)
  end.

End strings_lib.

(** ** internal/workloadmanager: the metric override file *)

Module override.
Import workloadmanager.

(** A [bufio.Scanner] over the file: the lines it has yet to yield and the
    error it reports once it has stopped. *)
Record Scanner := {
  tokens : list string;
  scanErr : option error
}.

(** [metricEmitter]; the map is nil until the first call of [getMetric]. *)
Record metricEmitter := {
  scanner : Scanner;
  workloadType : WorkloadType;
  metrics : option (gmap string string)
}.

(** The log lines of the parser. *)
Inductive Event :=
| DebugCouldNotRead (err : error)
| WarnInvalidFormat (line : string)
| WarnScanner (err : error).

(** What a call of [getMetric] returns, the emitter it leaves behind and
    the warnings it has logged. *)
Record Emitted := {
  emittedType : WorkloadType;
  emittedMetrics : gmap string string;
  last : bool;
  emitter : metricEmitter;
  warnings : list Event
}.

Section WithTrimSpace.

(** [strings.TrimSpace] of the Go library. *)
Variable TrimSpace : string -> string.

(** The loop [for e.scanner.Scan() { ... }] of [getMetric] and what
    follows it, on the lines left, with the fields of the emitter and the
    warnings logged so far. *)
Fixpoint scan (lines : list string) (err : option error)
    (wt : WorkloadType) (ms : gmap string string) (warns : list Event)
  : Emitted :=
  match lines with
  | [] =>
      {| emittedType := wt; emittedMetrics := ms; last := true;
         emitter := {| scanner := {| tokens := []; scanErr := err |};
                       workloadType := wt; metrics := Some ms |};
         warnings := warns ++ match err with
                              | Some e => [WarnScanner e]
                              | None => []
                              end |}
  | line :: rest =>
      if String.eqb line "" || strings_lib.HasPrefix line "#"
      then scan rest err wt ms warns
      else
        let '(key, value, found) := strings_lib.Cut line ":" in
        if negb found
        then scan rest err wt ms (warns ++ [WarnInvalidFormat line])
        else
          let key := TrimSpace key in
          let value := TrimSpace value in
          if String.eqb key "workload_type"
          then
            if String.eqb wt ""
            then scan rest err value ms warns
            else
              {| emittedType := wt; emittedMetrics := ms; last := false;
                 emitter := {| scanner := {| tokens := rest; scanErr := err |};
                               workloadType := value; metrics := Some ∅ |};
                 warnings := warns |}
          else scan rest err wt (<[key := value]> ms) warns
  end.

(** [getMetric(ctx)] *)
Definition getMetric (e : metricEmitter) : Emitted :=
  scan (tokens (scanner e)) (scanErr (scanner e)) (workloadType e)
    (default ∅ (metrics e)) [].

(** The loop [for { wt, metrics, last := getMetric(ctx); wm = append(...);
    if last { break } }], run for at most [fuel] calls of [getMetric];
    [None] when the calls allowed do not reach the last batch. *)
Fixpoint collectLoop (fuel : nat) (e : metricEmitter)
  : option (list WorkloadMetrics * list Event) :=
  match fuel with
  | 0 => None
  | S fuel =>
      let r := getMetric e in
      let wm := {| WorkloadMetrics_WorkloadType := emittedType r;
                   Metrics := emittedMetrics r |} in
      if last r then Some ([wm], warnings r)
      else
        match collectLoop fuel (emitter r) with
        | None => None
        | Some (wms, warns) => Some (wm :: wms, warnings r ++ warns)
        end
  end.

(** [collectOverrideMetrics(ctx, reader)], given what the reader returns
    for the override path.  One call of [getMetric] per line and one more
    are allowed to the loop. *)
Definition collectOverrideMetrics (file : result Scanner)
  : option (list WorkloadMetrics * list Event) :=
  match file with
  | Err e => Some ([], [DebugCouldNotRead e])
  | Ok sc =>
      collectLoop (S (length (tokens sc)))
        {| scanner := sc; workloadType := ""; metrics := None |}
  end.

End WithTrimSpace.

End override.

(** ** internal/daemon/oracle: the two routines *)

Module oracle_routines.
Import servicecommunication oracle.

(** The argument [a any] of a routine: the argument structures [Start]
    builds around the service, or a value of another type. *)
Inductive any :=
| DiscoveryArgs (s : Service)
| MetricCollectionArgs (s : Service)
| OtherArgs.

(** What a [select] on [ctx.Done()] and the ticker observes. *)
Inductive Wake :=
| CtxDone
| Tick.

(** The observable steps of the routines: their log lines, their sleeps
    and the calls they make on the discovery service and on the metric
    collector. *)
Inductive Event :=
| LogRunningDiscovery
| LogNotDiscoveryArgs
| Sleep (d : Duration)
| Discover (cp : option cpb.CloudProperties) (ps : slice ProcessWrapper)
| LogDiscoverFailed (err : error)
| LogDiscoveryCancelled
| LogRunningMetricCollection
| LogNotMetricCollectionArgs
| LogInitFailed (err : error)
| LogMetricCollectionCancelled
| SendHealthMetricsToCloudMonitoring
| SendDefaultMetricsToCloudMonitoring.

(** How a routine ended; [StillRunning] when the script ends first. *)
Inductive Exit :=
| Returned
| PanicNonPositiveInterval
| StillRunning.

(** [AsDuration()] of a duration field that may be unset. *)
Definition AsDuration (d : option Duration) : Duration := default 0%Z d.

Definition GetUpdateFrequency (s : Service) : option Duration :=
  cpb.GetOracleDiscovery (cpb.GetOracleConfiguration (Config s))
    ≫= cpb.OracleDiscovery_UpdateFrequency.

Definition GetCollectionFrequency (s : Service) : option Duration :=
  cpb.GetOracleMetrics (cpb.GetOracleConfiguration (Config s))
    ≫= cpb.OracleMetrics_CollectionFrequency.

(** One read of [s.processes] by [runDiscovery] and what follows it: the
    messages the inbound goroutine has handled since the previous read,
    whether the context is done when the waiting loop looks at it, what
    [Discover] returns if it is called, and what wakes the [select] that
    follows a successful discovery. *)
Record Step := {
  arrivals : list Message;
  cancelled : bool;
  discoverErr : option error;
  wake : Wake
}.

(** The loop of [runDiscovery].  [waiting] tells whether the read is the
    one inside [for processes == nil { ... }], which follows a sleep and
    is followed by a look at the context, or the one at the top of the
    outer loop. *)
Fixpoint discoveryLoop (script : list Step) (waiting : bool) (s : Service)
  : list Event * Exit :=
  match script with
  | [] => ([], StillRunning)
  | st :: rest =>
      let s := inbound (arrivals st) s in
      let discover :=
        match discoverErr st with
        | Some e =>
            ([Discover (CloudProps s) (processes s); LogDiscoverFailed e],
             Returned)
        | None =>
            match wake st with
            | CtxDone =>
                ([Discover (CloudProps s) (processes s);
                  LogDiscoveryCancelled], Returned)
            | Tick =>
                let '(evs, ex) := discoveryLoop rest false s in
                (Discover (CloudProps s) (processes s) :: evs, ex)
            end
        end in
      if waiting
      then
        if cancelled st
        then ([Sleep (5 * Second)%Z; LogDiscoveryCancelled], Returned)
        else
          match processes s with
          | None =>
              let '(evs, ex) := discoveryLoop rest true s in
              (Sleep (5 * Second)%Z :: evs, ex)
          | Some _ => (Sleep (5 * Second)%Z :: discover.1, discover.2)
          end
      else
        match processes s with
        | None => discoveryLoop rest true s
        | Some _ => discover
        end
  end.

(** [runDiscovery(ctx, a)].  [time.NewTicker] panics on a period that is
    not positive. *)
Definition runDiscovery (a : any) (script : list Step)
  : list Event * Exit :=
  match a with
  | DiscoveryArgs s =>
      if (AsDuration (GetUpdateFrequency s) <=? 0)%Z
      then ([LogRunningDiscovery], PanicNonPositiveInterval)
      else
        let '(evs, ex) := discoveryLoop script false s in
        (LogRunningDiscovery :: evs, ex)
  | _ => ([LogRunningDiscovery; LogNotDiscoveryArgs], Returned)
  end.

(** The loop of [runMetricCollection]. *)
Fixpoint metricLoop (script : list Wake) : list Event * Exit :=
  match script with
  | [] => ([], StillRunning)
  | CtxDone :: _ => ([LogMetricCollectionCancelled], Returned)
  | Tick :: rest =>
      let '(evs, ex) := metricLoop rest in
      (SendHealthMetricsToCloudMonitoring
         :: SendDefaultMetricsToCloudMonitoring :: evs, ex)
  end.

(** [runMetricCollection(ctx, a)]; [newErr] is the error, if any, with
    which [oraclemetrics.New] answers. *)
Definition runMetricCollection (a : any) (newErr : option error)
    (script : list Wake) : list Event * Exit :=
  match a with
  | MetricCollectionArgs s =>
      if (AsDuration (GetCollectionFrequency s) <=? 0)%Z
      then ([LogRunningMetricCollection], PanicNonPositiveInterval)
      else
        match newErr with
        | Some e => ([LogRunningMetricCollection; LogInitFailed e], Returned)
        | None =>
            let '(evs, ex) := metricLoop script in
            (LogRunningMetricCollection :: evs, ex)
        end
  | _ => ([LogRunningMetricCollection; LogNotMetricCollectionArgs], Returned)
  end.

End oracle_routines.

(** ** The result set of the Postgres tests *)

Module postgrestest.

(** Go's [int] on the 64-bit platforms the agent is built for. *)
Definition wrap (z : Z) : Z :=
  ((z + 2 ^ 63) mod 2 ^ 64 - 2 ^ 63)%Z.

(** [workMemRows] of the test file. *)
Record workMemRows := {
  count : Z;
  size : Z;
  data : string;
  shouldErr : bool
}.

(** [Next()]: counts the call and tells whether the count is still
    within the size. *)
Definition Next (f : workMemRows) : bool * workMemRows :=
  let count' := wrap (count f + 1) in
  ((count' <=? size f)%Z,
   {| count := count'; size := size f; data := data f;
      shouldErr := shouldErr f |}).

(** [Scan(dest)] with one destination of type [*string]. *)
Definition Scan (f : workMemRows) : result string :=
  if shouldErr f then Err "test-error" else Ok (data f).

(** The rows a reader obtains with [for rows.Next() { rows.Scan(&v) }],
    reading at most [fuel] rows. *)
Fixpoint readAll (fuel : nat) (f : workMemRows) : list (result string) :=
  match fuel with
  | 0 => []
  | S fuel =>
      let '(more, f') := Next f in
      if more then Scan f' :: readAll fuel f' else []
  end.

End postgrestest.

(** ** The address parser of the Go library *)

Module net.

(** [net.IP]: the bytes of an address. *)
Definition IP := list Z.

Definition isDigit (c : ascii) : bool :=
  (48 <=? nat_of_ascii c) && (nat_of_ascii c <=? 57).

(** The loop of [parseIPv4] over the bytes of the text: [prev] is the
    byte before the one looked at, [val] and [digLen] the value and the
    number of digits of the field being read, [fields] the fields read
    so far.  A field has at least one digit, no leading zero and a value
    of at most 255, and there are four of them. *)
Fixpoint parseIPv4Fields (s : string) (prev : option ascii) (val : Z)
    (digLen : nat) (fields : list Z) : option (list Z) :=
  match s with
  | EmptyString =>
      if length fields <? 3 then None else Some (fields ++ [val])
  | String c rest =>
      if isDigit c then
        if (digLen =? 1) && (val =? 0)%Z then None
        else
          let val' := (val * 10 + Z.of_nat (nat_of_ascii c) - 48)%Z in
          if (255 <? val')%Z then None
          else parseIPv4Fields rest (Some c) val' (S digLen) fields
      else if Ascii.eqb c "." then
        match prev, rest with
        | None, _ => None
        | _, EmptyString => None
        | Some p, _ =>
            if Ascii.eqb p "." then None
            else if length fields =? 3 then None
            else parseIPv4Fields rest (Some c) 0%Z 0 (fields ++ [val])
        end
      else None
  end.

(** A dotted-decimal address in the 16-byte form [net.IP] gives it. *)
Definition parseIPv4 (s : string) : option IP :=
  match parseIPv4Fields s None 0%Z 0 [] with
  | Some fields => Some ([0; 0; 0; 0; 0; 0; 0; 0; 0; 0; 255; 255]%Z ++ fields)
  | None => None
  end.

Section WithIPv6.

(** The parser of the colon-separated form, which is not modelled. *)
Variable parseIPv6 : string -> option IP.

(** The first dot, colon or percent sign of the text decides how it is
    read; a text with none of them is no address. *)
Fixpoint ParseAddr (s rest : string) : option IP :=
  match rest with
  | EmptyString => None
  | String c rest' =>
      if Ascii.eqb c "." then parseIPv4 s
      else if Ascii.eqb c ":" then parseIPv6 s
      else if Ascii.eqb c "%" then None
      else ParseAddr s rest'
  end.

(** [net.ParseIP(s)]: nil ([None]) when the text is no address. *)
Definition ParseIP (s : string) : option IP := ParseAddr s s.

End WithIPv6.

End net.

(** ** The resolver of the MySQL tests *)

Module mysqltest.

(** [mockNetInterface] of the test file; a map a test case leaves out is
    nil, which is read as the empty map. *)
Record mockNetInterface := {
  lookupHostValue : gmap string (list string);
  lookupHostErr : gmap string error;
  lookupAddrValue : gmap string (list string);
  lookupAddrErr : gmap string error
}.

Definition LookupHost (m : mockNetInterface) (host : string)
  : slice string * option error :=
  match lookupHostErr m !! host with
  | Some err => (None, Some err)
  | None => (lookupHostValue m !! host, None)
  end.

Definition LookupAddr (m : mockNetInterface) (ip : string)
  : slice string * option error :=
  match lookupAddrErr m !! ip with
  | Some err => (None, Some err)
  | None => (lookupAddrValue m !! ip, None)
  end.

Section WithIPv6.

Variable parseIPv6 : string -> option net.IP.

Definition ParseIP (m : mockNetInterface) (ip : string) : option net.IP :=
  if String.eqb ip EmptyString then None
  else if String.eqb ip "1.2.3.4" || String.eqb ip "5.6.7.8"
  then net.ParseIP parseIPv6 "127.0.0.1"
  else net.ParseIP parseIPv6 ip.

(** The mock as the resolver the collector is given. *)
Definition netMock (m : mockNetInterface) : mysqlmetrics.netInterface :=
  {| mysqlmetrics.LookupHost := LookupHost m;
     mysqlmetrics.ParseIP := ParseIP m;
     mysqlmetrics.LookupAddr := LookupAddr m |}.

End WithIPv6.

End mysqltest.

(** * Vocabulary of the statements *)

Module oracle_obs.
Import servicecommunication oracle.

(** The routines a run of [Start] has started, in order. *)
Definition started (r : Run) : list Routine :=
  omap (fun e => match e with
                 | StartRoutine rr => Some (routine rr)
                 | _ => None
                 end) (events r).

(** The routines the configuration asks for, in the order [Start]
    considers them. *)
Definition configured (s : Service) : list Routine :=
  let oc := cpb.GetOracleConfiguration (Config s) in
  (if cpb.GetDiscoveryEnabled (cpb.GetOracleDiscovery oc)
   then [runDiscovery] else [])
  ++ (if cpb.GetMetricsEnabled (cpb.GetOracleMetrics oc)
      then [runMetricCollection] else []).

(** The state of the service when [Start] reads the presence flag for
    the [k]-th time (counting from zero): the inbound goroutine has
    handled the first [k + 1] batches of the script. *)
Definition stateAt (arrivals : list (list Message)) (s : Service)
    (k : nat) : Service :=
  inbound (concat (take (S k) arrivals)) s.

Definition flagAt (arrivals : list (list Message)) (s : Service)
    (k : nat) : bool :=
  isProcessPresent (stateAt arrivals s k).

(** The service passes its enabled gate: it is enabled by configuration,
    or the field is unset and some read of the flag sees it set. *)
Definition passesEnabledGate (arrivals : list (list Message))
    (s : Service) : Prop :=
  match cpb.GetOracleConfiguration (Config s) with
  | None => False
  | Some oc =>
      match cpb.Enabled oc with
      | Some b => b = true
      | None => exists k, k < length arrivals /\ flagAt arrivals s k = true
      end
  end.

(** A process whose name lookup succeeds with a name that starts with
    one of the Oracle prefixes. *)
Definition oracleNamed (p : ProcessWrapper) : Prop :=
  exists name,
    Name p = Ok name /\
    (String.prefix "ora_pmon_" name = true \/
     String.prefix "db_pmon_" name = true).

(** A sequence of calls of [checkServiceCommunication]. *)
Definition calls (steps : list (bool * Arrival)) (s : Service) : Service :=
  foldl (fun s step => checkServiceCommunication step.1 step.2 s) s steps.

End oracle_obs.

Module discovery_obs.
Import servicecommunication discovery.

(** A round after which the loop goes on: the discovery succeeds and the
    ticker, not the context, wakes the [select]. *)
Definition continues (rd : Round) : Prop :=
  (commonDiscoveryLoop (listing rd)).2 = None /\ wake rd = Tick.

(** The single send attempted on channel [i]. *)
Definition attempt (m : Message) (i : nat) (ch : Chan) : Event :=
  if full ch then Skipped i m else Sent i m.

(** The channel after the attempt. *)
Definition deliver (m : Message) (ch : Chan) : Chan :=
  if full ch then ch else enqueue m ch.

End discovery_obs.

Module mysql_obs.
Import sql mysqlmetrics.

(** A query fails when it returns an error or no result set. *)
Definition failed (q : option rowsInterface * option error) : Prop :=
  q.2 <> None \/ q.1 = None.

(** A query returns at least one row. *)
Definition returnsRow (q : option rowsInterface * option error) : Prop :=
  q.2 = None /\ exists row rows, q.1 = Some (row :: rows).

(** A name without a dot. *)
Fixpoint dotless (s : string) : bool :=
  match s with
  | EmptyString => true
  | String c s' => negb (Ascii.eqb c ".") && dotless s'
  end.

End mysql_obs.

(** The workload type of the request built for a batch. *)
Definition requestType (req : dwpb.WriteInsightRequest)
  : dwpb.TorsoValidation_WorkloadType :=
  dwpb.WorkloadType (dwpb.torso_validation (dwpb.insight req)).

(** The kinds of workload the package declares a constant for, [UNKNOWN]
    apart. *)
Definition knownKinds : list workloadmanager.WorkloadType :=
  [workloadmanager.ORACLE; workloadmanager.MYSQL; workloadmanager.POSTGRES;
   workloadmanager.REDIS; workloadmanager.MONGODB].

(** Sample values used to exercise the statements. *)

Module samples.
Import servicecommunication.

Definition pmon : ProcessWrapper :=
  {| Username := Ok "oracle"; Pid := 4242%Z; Name := Ok "ora_pmon_ORCL";
     CmdlineSlice := Ok ["ora_pmon_ORCL"]; Environ := Ok [] |}.

Definition sshd : ProcessWrapper :=
  {| Username := Ok "root"; Pid := 811%Z; Name := Ok "sshd";
     CmdlineSlice := Ok ["/usr/sbin/sshd"; "-D"]; Environ := Ok [] |}.

Definition exited : ProcessWrapper :=
  {| Username := Err "process does not exist"; Pid := 77%Z;
     Name := Err "process does not exist";
     CmdlineSlice := Err "process does not exist";
     Environ := Err "process does not exist" |}.

Definition withOracle : Message :=
  {| Origin := Discovery; Result := {| Processes := Some [sshd; pmon] |} |}.

Definition withoutOracle : Message :=
  {| Origin := Discovery; Result := {| Processes := Some [sshd; exited] |} |}.

Definition oracleConfiguration (enabled : option bool)
  : cpb.OracleConfiguration :=
  {| cpb.Enabled := enabled;
     cpb.oracle_discovery :=
       Some {| cpb.OracleDiscovery_Enabled := true;
               cpb.OracleDiscovery_UpdateFrequency := Some Hour |};
     cpb.oracle_metrics :=
       Some {| cpb.OracleMetrics_Enabled := true;
               cpb.OracleMetrics_CollectionFrequency :=
                 Some (60 * Second)%Z |} |}.

Definition cloudProperties : cpb.CloudProperties :=
  {| cpb.ProjectId := "test-project"; cpb.InstanceId := "1234567890";
     cpb.InstanceName := "db-host"; cpb.Region := "us-central1";
     cpb.Zone := "us-central1-a" |}.

Definition configuration (enabled : option bool) : cpb.Configuration :=
  {| cpb.oracle_configuration := Some (oracleConfiguration enabled);
     cpb.common_discovery := None;
     cpb.cloud_properties := Some cloudProperties;
     cpb.DataWarehouseEndpoint := "" |}.

Definition oracleService (enabled : option bool) : oracle.Service :=
  {| oracle.Config := Some (configuration enabled);
     oracle.CloudProps := Some cloudProperties;
     oracle.metricCollectionRoutine := None;
     oracle.discoveryRoutine := None;
     oracle.currentSIDs := None;
     oracle.isProcessPresent := false;
     oracle.processes := None |}.

Definition emptyChan : discovery.Chan :=
  {| discovery.capacity := 1; discovery.buffer := [] |}.

Definition fullChan : discovery.Chan :=
  {| discovery.capacity := 1; discovery.buffer := [withoutOracle] |}.

Definition discoveryService : discovery.Service :=
  {| discovery.Config := Some (configuration None) |}.

Definition goodRound : discovery.Round :=
  {| discovery.received := [];
     discovery.listing := (Some [sshd; pmon], None);
     discovery.wake := discovery.Tick |}.

Definition emptyRound : discovery.Round :=
  {| discovery.received := [];
     discovery.listing := (Some [], None);
     discovery.wake := discovery.Tick |}.

Definition created : option wlm.WriteInsightResponse :=
  Some {| wlm.HTTPStatusCode := 201 |}.

Definition testWLM (responses : list (option wlm.WriteInsightResponse))
    (errs : list (option error)) : gcefake.TestWLM :=
  {| gcefake.WriteInsightResponses := responses;
     gcefake.WriteInsightErrs := errs;
     gcefake.WriteInsightCallCount := 0;
     gcefake.WriteInsightArgs := [] |}.

(** The database of the Postgres test table: [SHOW work_mem] answers
    with one row. *)
Definition nilResponseParams
  : workloadmanager.SendDataInsightParams gcefake.TestWLM :=
  {| workloadmanager.WLMetrics :=
       {| workloadmanager.WorkloadMetrics_WorkloadType :=
            workloadmanager.POSTGRES;
          workloadmanager.Metrics := {[ "work_mem" := "67108864" ]} |};
     workloadmanager.CloudProps := Some cloudProperties;
     workloadmanager.WLMService := testWLM [None] [None] |}.

Definition postgresDB (workMem : string) : sql.dbInterface :=
  {| sql.QueryContext := fun query =>
       if String.eqb query "SHOW work_mem"
       then (Some [Ok workMem], None)
       else (None, None);
     sql.Ping := None |}.

Definition postgres (workMem : string)
    (responses : list (option wlm.WriteInsightResponse))
    (errs : list (option error))
  : postgresmetrics.PostgresMetrics gcefake.TestWLM :=
  {| postgresmetrics.Config := Some (configuration None);
     postgresmetrics.db := postgresDB workMem;
     postgresmetrics.WLMClient := testWLM responses errs |}.

(** The database of the MySQL test tables. *)
Definition replicationZonesQuery : string := "replicationZonesQuery".

Definition mysqlDB
    (replica slave zones : option sql.rowsInterface * option error)
  : mysqlmetrics.MySQLMetrics :=
  {| mysqlmetrics.db :=
       {| sql.QueryContext := fun query =>
            if String.eqb query "SHOW REPLICA STATUS" then replica
            else if String.eqb query "SHOW SLAVE STATUS" then slave
            else if String.eqb query replicationZonesQuery then zones
            else (None, None);
          sql.Ping := None |} |}.

Definition testError : option error := Some "test-error".

(** No text of the test tables holds a colon: the colon-separated form
    of an address is not exercised. *)
Definition noIPv6 : string -> option net.IP := fun _ => None.

(** The mocks of the test table of [replicationZones], one per case. *)
Definition noMock : mysqltest.mockNetInterface :=
  {| mysqltest.lookupHostValue := ∅; mysqltest.lookupHostErr := ∅;
     mysqltest.lookupAddrValue := ∅; mysqltest.lookupAddrErr := ∅ |}.

Definition happyPathIp : mysqltest.mockNetInterface :=
  {| mysqltest.lookupHostValue := ∅; mysqltest.lookupHostErr := ∅;
     mysqltest.lookupAddrValue :=
       {[ "1.2.3.4" := ["testname.test-zone.c.fake-project.internal."] ]};
     mysqltest.lookupAddrErr := ∅ |}.

Definition happyPathIp2 : mysqltest.mockNetInterface :=
  {| mysqltest.lookupHostValue := ∅; mysqltest.lookupHostErr := ∅;
     mysqltest.lookupAddrValue :=
       {[ "5.6.7.8" := ["testname.test-zone2.c.fake-project.internal."] ]};
     mysqltest.lookupAddrErr := ∅ |}.

Definition invalidIP : mysqltest.mockNetInterface :=
  {| mysqltest.lookupHostValue := ∅;
     mysqltest.lookupHostErr := {[ "1.241234.3.4" := "test-error" ]};
     mysqltest.lookupAddrValue := ∅; mysqltest.lookupAddrErr := ∅ |}.

Definition happyPathHostname : mysqltest.mockNetInterface :=
  {| mysqltest.lookupHostValue :=
       {[ "testname.test-zone.c.fake-project.internal." := ["valid"] ]};
     mysqltest.lookupHostErr := ∅;
     mysqltest.lookupAddrValue := ∅; mysqltest.lookupAddrErr := ∅ |}.

(** The resolver of the case HappyPathIp. *)
Definition mockNet : mysqlmetrics.netInterface :=
  mysqltest.netMock noIPv6 happyPathIp.

(** A batch of the Postgres collector and a batch of type MONGODB. *)
Definition postgresBatch : workloadmanager.WorkloadMetrics :=
  {| workloadmanager.WorkloadMetrics_WorkloadType := workloadmanager.POSTGRES;
     workloadmanager.Metrics := {[ "work_mem" := "83886080" ]} |}.

Definition mongoBatch : workloadmanager.WorkloadMetrics :=
  {| workloadmanager.WorkloadMetrics_WorkloadType := workloadmanager.MONGODB;
     workloadmanager.Metrics := ∅ |}.

End samples.

(** Vocabulary of the override parser. *)

Module override_obs.
Import workloadmanager override.

(** What a line of the override file is to the parser: skipped silently
    (empty or a comment), reported as invalid (no colon), the header of a
    workload, or a metric. *)
Inductive Line :=
| Ignored
| Invalid
| Header (value : string)
| Metric (key value : string).

Definition classify (TrimSpace : string -> string) (line : string) : Line :=
  if String.eqb line "" || strings_lib.HasPrefix line "#" then Ignored
  else
    let '(key, value, found) := strings_lib.Cut line ":" in
    if negb found then Invalid
    else if String.eqb (TrimSpace key) "workload_type"
         then Header (TrimSpace value)
         else Metric (TrimSpace key) (TrimSpace value).

Definition isHeader (TrimSpace : string -> string) (line : string) : bool :=
  match classify TrimSpace line with
  | Header _ => true
  | _ => false
  end.

Definition isInvalid (TrimSpace : string -> string) (line : string) : bool :=
  match classify TrimSpace line with
  | Invalid => true
  | _ => false
  end.

(** A line that is a header or a metric. *)
Definition isUsed (TrimSpace : string -> string) (line : string) : bool :=
  match classify TrimSpace line with
  | Header _ | Metric _ _ => true
  | _ => false
  end.

(** The value of a header line. *)
Definition headerValue (TrimSpace : string -> string) (line : string)
  : string :=
  match classify TrimSpace line with
  | Header v => v
  | _ => ""
  end.

(** The metrics a run of lines adds to a map. *)
Definition addMetric (TrimSpace : string -> string)
    (ms : gmap string string) (line : string) : gmap string string :=
  match classify TrimSpace line with
  | Metric k v => <[k := v]> ms
  | _ => ms
  end.

Definition metricsOf (TrimSpace : string -> string) (body : list string)
  : gmap string string :=
  foldl (addMetric TrimSpace) ∅ body.

(** The values the metric lines of a run give to a key, in order. *)
Definition valuesOf (TrimSpace : string -> string) (k : string)
    (lines : list string) : list string :=
  omap (fun line => match classify TrimSpace line with
                    | Metric k' v => if String.eqb k' k then Some v else None
                    | _ => None
                    end) lines.

(** The batches of a file, one call of [getMetric] after the other. *)
Fixpoint batches (TrimSpace : string -> string) (lines : list string)
    (wt : WorkloadType) (ms : gmap string string) : list WorkloadMetrics :=
  match lines with
  | [] => [{| WorkloadMetrics_WorkloadType := wt; Metrics := ms |}]
  | line :: rest =>
      match classify TrimSpace line with
      | Ignored | Invalid => batches TrimSpace rest wt ms
      | Metric k v => batches TrimSpace rest wt (<[k := v]> ms)
      | Header v =>
          if String.eqb wt "" then batches TrimSpace rest v ms
          else {| WorkloadMetrics_WorkloadType := wt; Metrics := ms |}
                 :: batches TrimSpace rest v ∅
      end
  end.

(** The warnings of a file. *)
Definition warningsOf (TrimSpace : string -> string) (lines : list string)
    (err : option error) : list Event :=
  (WarnInvalidFormat <$> List.filter (isInvalid TrimSpace) lines)
  ++ match err with
     | Some e => [WarnScanner e]
     | None => []
     end.

(** The batch a group of the file stands for: the value of its header
    line and the metrics of its body. *)
Definition batchOf (TrimSpace : string -> string)
    (group : string * list string) : WorkloadMetrics :=
  {| WorkloadMetrics_WorkloadType := headerValue TrimSpace group.1;
     Metrics := metricsOf TrimSpace group.2 |}.

(** The lines of a file made of groups. *)
Definition linesOf (groups : list (string * list string)) : list string :=
  concat ((fun group => group.1 :: group.2) <$> groups).

(** A trimming of the six ASCII white-space characters, as
    [strings.TrimSpace] does on a text of ASCII characters. *)
Definition asciiSpace (c : ascii) : bool :=
  let n := nat_of_ascii c in
  (n =? 9) || (n =? 10) || (n =? 11) || (n =? 12) || (n =? 13) || (n =? 32).

Fixpoint trimLeft (s : string) : string :=
  match s with
  | EmptyString => EmptyString
  | String c s' => if asciiSpace c then trimLeft s' else s
  end.

Fixpoint trimRight (s : string) : string :=
  match s with
  | EmptyString => EmptyString
  | String c s' =>
      match trimRight s' with
      | EmptyString => if asciiSpace c then EmptyString
                       else String c EmptyString
      | t => String c t
      end
  end.

Definition trimASCII (s : string) : string := trimRight (trimLeft s).

End override_obs.

(** Sample override files. *)

Module override_samples.
Import override.

Definition plainFile : Scanner :=
  {| tokens := ["# no workload"; "a: 1"; ""; "a: 2"; "b:x"];
     scanErr := None |}.

Definition mysqlGroup : string * list string :=
  ("workload_type: MYSQL",
   ["# the server"; "version : 8.0"; "bogus line"; "url: http://db:3306"]).

Definition redisGroup : string * list string :=
  (" workload_type :REDIS", ["port: 6379"; "port: 6380"]).

End override_samples.

(** Vocabulary of the inbound messages. *)

Module inbound_obs.
Import servicecommunication.

Definition isDiscovery (msg : Message) : bool :=
  match Origin msg with
  | Discovery => true
  | _ => false
  end.

End inbound_obs.

(** Vocabulary of the fan-out, channel by channel. *)

Module fanout_obs.
Import servicecommunication discovery discovery_obs.

(** What a run of the fan-out does to the subscriber channel of index
    [i], told without the other channels: at each round the subscriber
    takes the messages the script says, then the message of the round is
    delivered unless the channel is full. *)
Fixpoint channelRun (script : list Round) (i : nat) (ch : Chan) : Chan :=
  match script with
  | [] => ch
  | rd :: rest =>
      let ch := receive (nth i (received rd) 0) ch in
      match commonDiscoveryLoop (listing rd) with
      | (_, Some _) => ch
      | (r, None) =>
          let ch := deliver {| Origin := Discovery; Result := r |} ch in
          match wake rd with
          | CtxDone => ch
          | Tick => channelRun rest i ch
          end
      end
  end.

(** A channel that holds no more than its capacity. *)
Definition withinCapacity (ch : Chan) : Prop :=
  length (buffer ch) <= capacity ch.

End fanout_obs.

(** Sample scripts of the routines. *)

Module routine_obs.
Import servicecommunication oracle oracle_obs oracle_routines.

(** Where [runDiscovery] makes its next read of the snapshot once the
    steps of [pre] are behind it: inside the waiting loop when the last
    read found the snapshot nil, at the top of the outer loop
    otherwise. *)
Definition waitingAfter (pre : list Step) (waiting : bool) (s : Service)
  : bool :=
  match pre with
  | [] => waiting
  | _ :: _ =>
      match processes (inbound (concat (arrivals <$> pre)) s) with
      | None => true
      | Some _ => false
      end
  end.

End routine_obs.

Module routine_samples.
Import servicecommunication oracle_routines.

(** A first read that finds no snapshot, then a sleep during which the
    discovery message arrives, a discovery and the cancellation. *)
Definition discoveryScript : list Step :=
  [{| arrivals := []; cancelled := false; discoverErr := None;
      wake := Tick |};
   {| arrivals := [samples.withOracle]; cancelled := false;
      discoverErr := None; wake := CtxDone |}].

(** A service whose configuration sets no frequency. *)
Definition noFrequency : oracle.Service :=
  {| oracle.Config :=
       Some {| cpb.oracle_configuration :=
                 Some {| cpb.Enabled := Some true;
                         cpb.oracle_discovery :=
                           Some {| cpb.OracleDiscovery_Enabled := true;
                                   cpb.OracleDiscovery_UpdateFrequency :=
                                     None |};
                         cpb.oracle_metrics :=
                           Some {| cpb.OracleMetrics_Enabled := true;
                                   cpb.OracleMetrics_CollectionFrequency :=
                                     None |} |};
               cpb.common_discovery := None;
               cpb.cloud_properties := None;
               cpb.DataWarehouseEndpoint := "" |};
     oracle.CloudProps := None;
     oracle.metricCollectionRoutine := None;
     oracle.discoveryRoutine := None;
     oracle.currentSIDs := None;
     oracle.isProcessPresent := false;
     oracle.processes := None |}.

End routine_samples.

(** * Properties *)

(** ** The inbound-message handler of the Oracle service *)

Section OracleInbound.
Import servicecommunication oracle oracle_obs.

Lemma isOracleProcess_oracleNamed p :
  isOracleProcess p = true <-> oracleNamed p.
Proof.
  unfold isOracleProcess, oracleNamed, HasAnyPrefix, oraProcessPrefixes.
  destruct (Name p) as [name|e]; cbn [existsb].
  - rewrite orb_false_r, orb_true_iff. split.
    + intros H. exists name. split; [reflexivity | exact H].
    + intros (name' & Heq & H). injection Heq as ->. exact H.
  - split; [discriminate |].
    intros (name & Heq & _). discriminate.
Qed.

Lemma scan_fields ps s :
  processes (scan ps s) = processes s /\
  Config (scan ps s) = Config s /\
  discoveryRoutine (scan ps s) = discoveryRoutine s /\
  metricCollectionRoutine (scan ps s) = metricCollectionRoutine s.
Proof.
  induction ps as [|p ps IH]; cbn [scan]; [auto |].
  destruct (isOracleProcess p); [cbn; auto | exact IH].
Qed.

Lemma scan_flag ps s :
  isProcessPresent (scan ps s)
  = isProcessPresent s || existsb isOracleProcess ps.
Proof.
  induction ps as [|p ps IH]; cbn [scan existsb].
  - now rewrite orb_false_r.
  - destruct (isOracleProcess p); cbn.
    + now rewrite orb_true_r.
    + exact IH.
Qed.

(** The flag after one message, as a function of the flag before. *)
Lemma handleMessage_flag msg s :
  isProcessPresent (handleMessage msg s)
  = isProcessPresent s
    || match Origin msg with
       | Discovery => existsb isOracleProcess (range (Processes (Result msg)))
       | _ => false
       end.
Proof.
  unfold handleMessage. destruct (Origin msg).
  - now rewrite scan_flag.
  - now rewrite orb_false_r.
  - now rewrite orb_false_r.
Qed.

Lemma handleMessage_routines msg s :
  Config (handleMessage msg s) = Config s /\
  discoveryRoutine (handleMessage msg s) = discoveryRoutine s /\
  metricCollectionRoutine (handleMessage msg s) = metricCollectionRoutine s.
Proof.
  unfold handleMessage. destruct (Origin msg); auto.
  destruct (scan_fields (range (Processes (Result msg)))
              (set_processes (Processes (Result msg)) s))
    as (_ & HC & HD & HM).
  rewrite HC, HD, HM. auto.
Qed.

Lemma checkServiceCommunication_monotone ctxErr a s :
  isProcessPresent s = true ->
  isProcessPresent (checkServiceCommunication ctxErr a s) = true.
Proof.
  intros H. unfold checkServiceCommunication.
  destruct ctxErr; [exact H |].
  destruct a as [|msg]; [exact H |].
  rewrite handleMessage_flag, H. reflexivity.
Qed.

Lemma calls_monotone steps s :
  isProcessPresent s = true -> isProcessPresent (calls steps s) = true.
Proof.
  revert s. induction steps as [|[ctxErr a] steps IH]; intros s H.
  - exact H.
  - cbn. apply IH. now apply checkServiceCommunication_monotone.
Qed.

Lemma inbound_app msgs1 msgs2 s :
  inbound (msgs1 ++ msgs2) s = inbound msgs2 (inbound msgs1 s).
Proof. unfold inbound. apply foldl_app. Qed.

Lemma inbound_monotone msgs s :
  isProcessPresent s = true -> isProcessPresent (inbound msgs s) = true.
Proof.
  revert s. induction msgs as [|msg msgs IH]; intros s H; [exact H |].
  cbn. apply IH.
  now apply (checkServiceCommunication_monotone false (Recv msg)).
Qed.

Lemma inbound_routines msgs s :
  Config (inbound msgs s) = Config s /\
  discoveryRoutine (inbound msgs s) = discoveryRoutine s /\
  metricCollectionRoutine (inbound msgs s) = metricCollectionRoutine s.
Proof.
  revert s. induction msgs as [|msg msgs IH]; intros s; [cbn; auto |].
  cbn. destruct (IH (handleMessage msg s)) as (HC & HD & HM).
  destruct (handleMessage_routines msg s) as (HC' & HD' & HM').
  unfold inbound in *. cbn in *.
  rewrite HC, HD, HM, HC', HD', HM'. auto.
Qed.

(** C9.  The presence flag is a latch: once [isProcessPresent] is true
    it is true after any further sequence of calls of
    [checkServiceCommunication]; a call sets it exactly when it receives,
    on a live context, a message of origin Discovery that lists a process
    whose name is known and starts with "ora_pmon_" or "db_pmon_"; and a
    message of an unknown origin changes neither the flag nor the
    snapshot of processes. *)
Theorem checkServiceCommunication_latch :
  (forall steps s,
      isProcessPresent s = true ->
      isProcessPresent (calls steps s) = true) /\
  (forall ctxErr a s,
      isProcessPresent s = false ->
      (isProcessPresent (checkServiceCommunication ctxErr a s) = true <->
       ctxErr = false /\
       exists msg, a = Recv msg /\ Origin msg = Discovery /\
         exists p, In p (range (Processes (Result msg))) /\ oracleNamed p)) /\
  (forall ctxErr code r s,
      let s' := checkServiceCommunication ctxErr
                  (Recv {| Origin := OtherOrigin code; Result := r |}) s in
      isProcessPresent s' = isProcessPresent s /\
      processes s' = processes s).
Proof.
  split; [exact calls_monotone | split].
  - intros ctxErr a s Hs. unfold checkServiceCommunication.
    destruct ctxErr.
    { rewrite Hs. split; [discriminate | intros [? _]; discriminate]. }
    destruct a as [|msg].
    { rewrite Hs. split; [discriminate |].
      intros (_ & msg & Hmsg & _). discriminate. }
    rewrite handleMessage_flag, Hs. cbn [orb]. split.
    + intros H. split; [reflexivity |]. exists msg.
      split; [reflexivity |].
      destruct (Origin msg); try discriminate.
      split; [reflexivity |].
      apply existsb_exists in H as (p & Hin & Hp).
      exists p. split; [exact Hin |].
      now apply isOracleProcess_oracleNamed.
    + intros (_ & msg' & Heq & Ho & p & Hin & Hp).
      injection Heq as <-. rewrite Ho.
      apply existsb_exists. exists p. split; [exact Hin |].
      now apply isOracleProcess_oracleNamed.
  - intros ctxErr code r s. cbn.
    unfold checkServiceCommunication. destruct ctxErr; cbn; auto.
Qed.

(** A discovery message that lists [ora_pmon_ORCL] sets the flag, and the
    flag then survives a message without any Oracle process, a message of
    an unknown origin and a cancelled context. *)
Lemma checkServiceCommunication_latch_witness :
  isProcessPresent
    (checkServiceCommunication false (Recv samples.withOracle)
       (samples.oracleService None)) = true /\
  isProcessPresent
    (calls [(false, Recv samples.withoutOracle);
            (false, Recv {| Origin := OtherOrigin 7;
                            Result := {| Processes := None |} |});
            (true, CtxDone)]
       (set_isProcessPresent true (samples.oracleService None))) = true.
Proof.
  destruct checkServiceCommunication_latch as (Hlatch & Hset & _).
  split.
  - apply (Hset false (Recv samples.withOracle) (samples.oracleService None)
             eq_refl).
    split; [reflexivity |]. exists samples.withOracle.
    split; [reflexivity | split; [reflexivity |]].
    exists samples.pmon. split; [cbn; auto |].
    exists "ora_pmon_ORCL". split; [reflexivity | left; reflexivity].
  - apply Hlatch. reflexivity.
Defined.

End OracleInbound.

(** ** The gates of [Start] *)

Section OracleStart.
Import servicecommunication oracle oracle_obs.

Lemma stateAt_cons msgs rest s k :
  stateAt (msgs :: rest) s (S k) = stateAt rest (inbound msgs s) k.
Proof. unfold stateAt. cbn. apply inbound_app. Qed.

Lemma stateAt_0 msgs rest s : stateAt (msgs :: rest) s 0 = inbound msgs s.
Proof. unfold stateAt. cbn. now rewrite app_nil_r. Qed.

(** The polling loop leaves at the first read that sees the flag set. *)
Lemma poll_first arrivals : forall s k,
  k < length arrivals ->
  flagAt arrivals s k = true ->
  (forall j, j < k -> flagAt arrivals s j = false) ->
  poll arrivals s
  = (replicate k (Sleep (5 * Second)%Z), stateAt arrivals s k, true).
Proof.
  induction arrivals as [|msgs rest IH]; intros s k Hk Hflag Hbefore.
  - cbn in Hk. lia.
  - cbn [poll]. destruct k as [|k].
    + unfold flagAt in Hflag. rewrite stateAt_0 in *.
      now rewrite Hflag.
    + pose proof (Hbefore 0 ltac:(lia)) as H0.
      unfold flagAt in H0. rewrite stateAt_0 in H0. rewrite H0.
      rewrite (IH (inbound msgs s) k).
      * now rewrite stateAt_cons.
      * cbn in Hk. lia.
      * unfold flagAt in *. now rewrite <- stateAt_cons.
      * intros j Hj. specialize (Hbefore (S j) ltac:(lia)).
        unfold flagAt in *. now rewrite <- stateAt_cons.
Qed.

(** It does not leave while every read sees the flag unset. *)
Lemma poll_never arrivals : forall s,
  (forall k, k < length arrivals -> flagAt arrivals s k = false) ->
  poll arrivals s
  = (replicate (length arrivals) (Sleep (5 * Second)%Z),
     inbound (concat arrivals) s, false).
Proof.
  induction arrivals as [|msgs rest IH]; intros s Hall; [reflexivity |].
  cbn [poll]. pose proof (Hall 0 ltac:(cbn; lia)) as H0.
  unfold flagAt in H0. rewrite stateAt_0 in H0. rewrite H0.
  rewrite IH.
  - cbn [concat length replicate]. now rewrite inbound_app.
  - intros k Hk. specialize (Hall (S k) ltac:(cbn; lia)).
    unfold flagAt in *. now rewrite <- stateAt_cons.
Qed.

(** Some read sees the flag set: the loop leaves at one of them. *)
Lemma poll_present arrivals : forall s k,
  k < length arrivals ->
  flagAt arrivals s k = true ->
  exists j, j <= k /\
    poll arrivals s
    = (replicate j (Sleep (5 * Second)%Z), stateAt arrivals s j, true).
Proof.
  induction arrivals as [|msgs rest IH]; intros s k Hk Hflag.
  - cbn in Hk. lia.
  - cbn [poll].
    destruct (isProcessPresent (inbound msgs s)) eqn:H0.
    + exists 0. split; [lia |]. now rewrite stateAt_0.
    + destruct k as [|k].
      { unfold flagAt in Hflag. rewrite stateAt_0 in Hflag. congruence. }
      destruct (IH (inbound msgs s) k) as (j & Hj & Hpoll).
      * cbn in Hk. lia.
      * unfold flagAt in *. now rewrite <- stateAt_cons.
      * exists (S j). split; [lia |].
        rewrite Hpoll. now rewrite stateAt_cons.
Qed.

Lemma stateAt_routines arrivals s k :
  Config (stateAt arrivals s k) = Config s /\
  discoveryRoutine (stateAt arrivals s k) = discoveryRoutine s /\
  metricCollectionRoutine (stateAt arrivals s k)
  = metricCollectionRoutine s.
Proof. apply inbound_routines. Qed.

Lemma startLoops_not_linux GOOS s :
  GOOS <> "linux" ->
  startLoops GOOS s
  = {| service := s; events := [LogLinuxOnly]; outcome := Returned |}.
Proof.
  intros H. unfold startLoops.
  apply String.eqb_neq in H. now rewrite H.
Qed.

Lemma startLoops_linux s :
  started (startLoops "linux" s) = configured s /\
  outcome (startLoops "linux" s) = AwaitingCtxDone.
Proof.
  unfold startLoops, started, configured.
  change (negb (String.eqb "linux" "linux")) with false. cbv iota.
  destruct (cpb.GetDiscoveryEnabled _); cbn;
    destruct (cpb.GetMetricsEnabled _); cbn; auto.
Qed.

Lemma started_prepend evs r :
  (forall rr, ~ In (StartRoutine rr) evs) ->
  started (prepend evs r) = started r.
Proof.
  intros H. unfold started, prepend. cbn [events].
  rewrite omap_app.
  replace (omap _ evs) with (@nil Routine); [reflexivity |].
  symmetry. induction evs as [|e evs IH]; [reflexivity |].
  cbn. destruct e; try (apply IH; intros rr Hin; apply (H rr); now right).
  exfalso. apply (H r0). now left.
Qed.

Lemma started_sleeps n :
  omap (fun e => match e with
                 | StartRoutine rr => Some (routine rr)
                 | _ => None
                 end) (replicate n (Sleep (5 * Second)%Z)) = [].
Proof. induction n as [|n IH]; [reflexivity | exact IH]. Qed.

Lemma not_started_sleeps k pre post :
  (forall rr, ~ In (StartRoutine rr) pre) ->
  (forall rr, ~ In (StartRoutine rr) post) ->
  forall rr,
    ~ In (StartRoutine rr) (pre ++ replicate k (Sleep (5 * Second)%Z) ++ post).
Proof.
  intros Hpre Hpost rr Hin.
  apply in_app_or in Hin as [Hin | Hin]; [now apply (Hpre rr) |].
  apply in_app_or in Hin as [Hin | Hin]; [| now apply (Hpost rr)].
  apply list_elem_of_In, elem_of_replicate in Hin as [Heq _]. discriminate.
Qed.

(** C2.  The enabled gate of [Start].  With [enabled] true, [Start]
    goes straight on to the start-up of its loops, without a sleep and
    whatever the inbound messages are (on Linux it starts the configured
    routines and then waits for cancellation).  With [enabled] unset it
    goes on exactly at the first read of [isProcessPresent] that sees the
    flag set, after one sleep per earlier read, and while every read
    sees it unset it keeps polling and has started nothing.  With
    [enabled] false it logs and returns, having started no routine. *)
Theorem Start_enabled_gate GOOS arrivals s oc :
  cpb.GetOracleConfiguration (Config s) = Some oc ->
  (cpb.Enabled oc = Some true ->
     Start GOOS arrivals s
     = prepend [GoCheckServiceCommunication] (startLoops GOOS s) /\
     (GOOS = "linux" ->
        started (Start GOOS arrivals s) = configured s /\
        outcome (Start GOOS arrivals s) = AwaitingCtxDone)) /\
  (cpb.Enabled oc = None ->
     (forall k,
         k < length arrivals ->
         flagAt arrivals s k = true ->
         (forall j, j < k -> flagAt arrivals s j = false) ->
         Start GOOS arrivals s
         = prepend (GoCheckServiceCommunication :: LogEnabledUnset
                      :: replicate k (Sleep (5 * Second)%Z)
                      ++ [LogWorkloadPresent])
             (startLoops GOOS (stateAt arrivals s k))) /\
     ((forall k, k < length arrivals -> flagAt arrivals s k = false) ->
        outcome (Start GOOS arrivals s) = Polling /\
        started (Start GOOS arrivals s) = [] /\
        events (Start GOOS arrivals s)
        = GoCheckServiceCommunication :: LogEnabledUnset
            :: replicate (length arrivals) (Sleep (5 * Second)%Z))) /\
  (cpb.Enabled oc = Some false ->
     Start GOOS arrivals s
     = {| service := s;
          events := [GoCheckServiceCommunication; LogDisabled];
          outcome := Returned |} /\
     started (Start GOOS arrivals s) = []).
Proof.
  intros Hcfg. unfold Start. rewrite Hcfg.
  destruct oc as [en d m]. cbn [cpb.Enabled cpb.GetEnabled].
  split; [| split].
  - intros ->. cbv iota. split; [reflexivity |].
    intros ->. rewrite started_prepend.
    + apply startLoops_linux.
    + intros rr [Hin | []]. discriminate.
  - intros ->. split.
    + intros k Hk Hflag Hbefore.
      rewrite (poll_first arrivals s k Hk Hflag Hbefore).
      reflexivity.
    + intros Hnever. rewrite (poll_never arrivals s Hnever).
      cbn. repeat split. unfold started. cbn. apply started_sleeps.
  - intros ->. cbv iota. split; reflexivity.
Qed.

(** On a Linux host with [enabled] true both configured routines are
    started at once; with [enabled] unset and the Oracle process
    reported by the second discovery message, [Start] sleeps once and
    then starts them; with [enabled] false nothing is started. *)
Lemma Start_enabled_gate_witness :
  started (Start "linux" [] (samples.oracleService (Some true)))
  = [runDiscovery; runMetricCollection] /\
  events (Start "linux" [[samples.withoutOracle]; [samples.withOracle]]
            (samples.oracleService None))
  = [GoCheckServiceCommunication; LogEnabledUnset; Sleep (5 * Second)%Z;
     LogWorkloadPresent; StartRoutine discoveryRoutineOf;
     StartRoutine metricCollectionRoutineOf] /\
  outcome (Start "linux" [[samples.withoutOracle]]
             (samples.oracleService None)) = Polling /\
  started (Start "linux" [[samples.withOracle]]
             (samples.oracleService (Some false))) = [].
Proof.
  split; [| split; [| split]].
  - destruct (Start_enabled_gate "linux" []
                (samples.oracleService (Some true))
                (samples.oracleConfiguration (Some true)) eq_refl)
      as ((_ & H) & _ & _); [reflexivity |].
    destruct (H eq_refl) as [Hs _]. exact Hs.
  - destruct (Start_enabled_gate "linux"
                [[samples.withoutOracle]; [samples.withOracle]]
                (samples.oracleService None)
                (samples.oracleConfiguration None) eq_refl)
      as (_ & H & _).
    destruct (H eq_refl) as [Hfirst _].
    rewrite (Hfirst 1).
    + reflexivity.
    + cbn. lia.
    + reflexivity.
    + intros j Hj. assert (j = 0) as -> by lia. reflexivity.
  - destruct (Start_enabled_gate "linux" [[samples.withoutOracle]]
                (samples.oracleService None)
                (samples.oracleConfiguration None) eq_refl)
      as (_ & H & _).
    destruct (H eq_refl) as [_ Hnever].
    apply Hnever. intros k Hk. cbn in Hk.
    assert (k = 0) as -> by lia. reflexivity.
  - destruct (Start_enabled_gate "linux" [[samples.withOracle]]
                (samples.oracleService (Some false))
                (samples.oracleConfiguration (Some false)) eq_refl)
      as (_ & _ & H).
    destruct (H eq_refl) as [_ Hs]. exact Hs.
Defined.

(** C4.  The platform gate of [Start].  On a host whose operating system
    is not Linux, a service that passes its enabled gate logs that it is
    supported on Linux only and returns: no discovery routine and no
    metric-collection routine is started, and the routine fields of the
    service stay as they were.  As the tickers live in those routines,
    no discovery or metric tick fires. *)
Theorem Start_not_linux GOOS arrivals s :
  GOOS <> "linux" ->
  passesEnabledGate arrivals s ->
  let run := Start GOOS arrivals s in
  outcome run = Returned /\
  last (events run) = Some LogLinuxOnly /\
  started run = [] /\
  discoveryRoutine (service run) = discoveryRoutine s /\
  metricCollectionRoutine (service run) = metricCollectionRoutine s.
Proof.
  intros Hos Hgate. unfold passesEnabledGate in Hgate. cbn zeta.
  unfold Start.
  destruct (cpb.GetOracleConfiguration (Config s)) as [oc|]; [| easy].
  destruct oc as [[b|] d m]; cbn [cpb.Enabled] in *.
  - subst b. cbn [cpb.GetEnabled]. cbv iota.
    rewrite (startLoops_not_linux GOOS s Hos). cbn. auto.
  - destruct Hgate as (k & Hk & Hflag).
    destruct (poll_present arrivals s k Hk Hflag) as (j & _ & ->).
    rewrite (startLoops_not_linux GOOS _ Hos).
    destruct (stateAt_routines arrivals s j) as (_ & HD & HM).
    unfold started, prepend. cbn [service events outcome].
    repeat split; [| | exact HD | exact HM].
    + rewrite !app_assoc. apply last_snoc.
    + cbn. rewrite !omap_app. cbn. rewrite started_sleeps. reflexivity.
Qed.

(** On a Windows host the service enabled by configuration, and the
    service enabled by the presence of the Oracle process, both return
    with nothing started. *)
Lemma Start_not_linux_witness :
  started (Start "windows" [] (samples.oracleService (Some true))) = [] /\
  outcome (Start "windows" [[samples.withOracle]]
             (samples.oracleService None)) = Returned.
Proof.
  split.
  - refine (proj1 (proj2 (proj2
             (Start_not_linux "windows" []
                (samples.oracleService (Some true)) _ _)))).
    + discriminate.
    + reflexivity.
  - refine (proj1
             (Start_not_linux "windows" [[samples.withOracle]]
                (samples.oracleService None) _ _)).
    + discriminate.
    + exists 0. split; [cbn; lia | reflexivity].
Defined.

End OracleStart.

(** ** The process-discovery fan-out *)

Section Discovery.
Import servicecommunication discovery discovery_obs.

Lemma sendAll_spec r chs : forall i n,
  sendAll i r chs n
  = (map (deliver {| Origin := Discovery; Result := r |}) chs,
     imap (fun j => attempt {| Origin := Discovery; Result := r |} (i + j))
       chs,
     n + length (List.filter full chs)).
Proof.
  induction chs as [|ch rest IH]; intros i n.
  - cbn. now rewrite Nat.add_0_r.
  - cbn [sendAll map List.filter imap]. unfold attempt at 1, deliver at 1.
    rewrite Nat.add_0_r.
    destruct (full ch); rewrite IH; cbn [length].
    + f_equal; [f_equal |].
      * f_equal. apply imap_ext. intros j x _. cbn.
        f_equal. lia.
      * lia.
    + f_equal. f_equal. f_equal. apply imap_ext. intros j x _. cbn.
      f_equal. lia.
Qed.

Lemma commonDiscoveryLoop_ok l r :
  commonDiscoveryLoop l = (r, None) ->
  l.2 = None /\ 1 <= len l.1 /\ r = {| Processes := l.1 |}.
Proof.
  destruct l as [ps [e|]]; unfold commonDiscoveryLoop; [discriminate |].
  destruct (Nat.ltb_spec (len ps) 1) as [Hlen | Hlen]; [discriminate |].
  intros [= <-]. auto.
Qed.

Lemma commonDiscoveryLoop_empty l :
  len l.1 = 0 ->
  exists err, commonDiscoveryLoop l = ({| Processes := None |}, Some err).
Proof.
  destruct l as [ps [e|]]; unfold commonDiscoveryLoop; cbn [fst];
    intros Hlen.
  - now exists e.
  - rewrite Hlen. now exists "no processes found".
Qed.

(** The rounds before a given one, when each of them continues, only
    prefix their events and hand their channels on. *)
Lemma rounds_app before : forall tail chs,
  Forall continues before ->
  rounds (before ++ tail) chs
  = {| chans := chans (rounds tail (chans (rounds before chs)));
       events := events (rounds before chs)
                 ++ events (rounds tail (chans (rounds before chs)));
       exit := exit (rounds tail (chans (rounds before chs))) |}.
Proof.
  induction before as [|rd before IH]; intros tail chs Hall.
  - cbn. now destruct (rounds tail chs).
  - apply Forall_cons in Hall as [[Herr Hwake] Hall].
    cbn [app rounds].
    destruct (commonDiscoveryLoop (listing rd)) as [r [e|]];
      [discriminate |].
    destruct (sendAll 0 r (receiveAll (received rd) chs) 0)
      as [[chs' sends] fullChs].
    rewrite Hwake. rewrite (IH tail chs' Hall). cbn [chans events exit].
    f_equal. rewrite <- app_comm_cons, <- !app_assoc. reflexivity.
Qed.

(** C3.  A round whose process listing has no process fails, and the
    fan-out ends there.  Whatever rounds went on before, the round
    yields an error together with the empty [DiscoveryResult]; the run
    exits with that error, its trace being the trace of the earlier
    rounds followed by the one error log line (no send is attempted in
    the round), and the rounds the script holds after it never run. *)
Theorem CommonDiscovery_zero_processes d chs before rd after :
  (0 < frequency d)%Z ->
  Forall continues before ->
  len (listing rd).1 = 0 ->
  let prior := CommonDiscovery d (ChanSlice chs) before in
  let run := CommonDiscovery d (ChanSlice chs) (before ++ rd :: after) in
  exists err,
    commonDiscoveryLoop (listing rd) = ({| Processes := None |}, Some err) /\
    exit run = ExitDiscoveryFailed err /\
    events run = events prior ++ [LogFailed err] /\
    chans run = receiveAll (received rd) (chans prior) /\
    run = CommonDiscovery d (ChanSlice chs) (before ++ [rd]).
Proof.
  intros Hfreq Hall Hlen. cbn zeta.
  destruct (commonDiscoveryLoop_empty (listing rd) Hlen) as [err Herr].
  exists err. split; [exact Herr |].
  unfold CommonDiscovery.
  destruct (Z.leb_spec (frequency d) 0) as [Hle | _]; [lia |].
  rewrite !(rounds_app before) by exact Hall.
  cbn [rounds chans events exit]. rewrite Herr.
  cbn [chans events exit]. repeat split.
Qed.

(** After one successful round, a round that lists no process ends the
    run; the round scripted after it leaves no trace. *)
Lemma CommonDiscovery_zero_processes_witness :
  exists err,
    exit (CommonDiscovery samples.discoveryService
            (ChanSlice [samples.emptyChan; samples.fullChan])
            ([samples.goodRound] ++ samples.emptyRound
               :: [samples.goodRound]))
    = ExitDiscoveryFailed err.
Proof.
  destruct (CommonDiscovery_zero_processes samples.discoveryService
              [samples.emptyChan; samples.fullChan]
              [samples.goodRound] samples.emptyRound [samples.goodRound])
    as (err & _ & Hexit & _).
  - reflexivity.
  - repeat constructor.
  - reflexivity.
  - exists err. exact Hexit.
Defined.

Lemma lookup_map {A B} (f : A -> B) (l : list A) i :
  map f l !! i = f <$> l !! i.
Proof.
  revert i. induction l as [|x l IH]; intros [|i]; cbn; auto.
Qed.

(** C8.  A successful round attempts exactly one send per subscriber
    channel, in order, of a message of origin Discovery that carries the
    processes just listed.  The subscriber channels have a capacity of at
    least one.  On a channel whose buffer holds as many messages as its
    capacity the attempt is skipped and the buffer stays as it is; on any
    other channel the message is appended to the buffer; the loop goes
    through every channel either way.  The tally, logged when it is not
    zero, is the number of channels whose buffer was full. *)
Theorem CommonDiscovery_fan_out rd script chs r :
  Forall (fun ch => 1 <= capacity ch) chs ->
  commonDiscoveryLoop (listing rd) = (r, None) ->
  let chs0 := receiveAll (received rd) chs in
  let m := {| Origin := Discovery;
              Result := {| Processes := (listing rd).1 |} |} in
  let isFull := fun ch => capacity ch <=? length (buffer ch) in
  let fullChs := length (List.filter isFull chs0) in
  let tally := if 0 <? fullChs then [LogFullChs fullChs] else [] in
  let run := rounds (rd :: script) chs in
  r = {| Processes := (listing rd).1 |} /\
  exists sends chs',
    sendAll 0 r chs0 0 = (chs', sends, fullChs) /\
    length sends = length chs0 /\
    length chs' = length chs0 /\
    (forall i ch,
        chs0 !! i = Some ch ->
        exists ch',
          chs' !! i = Some ch' /\
          capacity ch' = capacity ch /\
          if isFull ch
          then sends !! i = Some (Skipped i m) /\ buffer ch' = buffer ch
          else sends !! i = Some (Sent i m) /\
               buffer ch' = buffer ch ++ [m]) /\
    match wake rd with
    | CtxDone =>
        events run
        = LogFound (len (listing rd).1) :: sends ++ tally ++ [LogCancelled] /\
        chans run = chs' /\
        exit run = ExitCancelled
    | Tick =>
        let next := rounds script chs' in
        events run
        = LogFound (len (listing rd).1) :: sends ++ tally
            ++ LogTickerFired :: events next /\
        chans run = chans next /\
        exit run = exit next
    end.
Proof.
  intros _ Hok. cbn zeta.
  destruct (commonDiscoveryLoop_ok _ _ Hok) as (_ & _ & Hr).
  split; [exact Hr |].
  set (m := {| Origin := Discovery;
               Result := {| Processes := (listing rd).1 |} |}).
  set (chs0 := receiveAll (received rd) chs).
  exists (imap (attempt m) chs0), (map (deliver m) chs0).
  split; [subst r; apply sendAll_spec |].
  split; [apply length_imap |].
  split; [apply length_map |].
  split.
  - intros i ch Hlook. exists (deliver m ch).
    rewrite lookup_map, list_lookup_imap, Hlook. cbn [fmap option_fmap option_map].
    unfold deliver, attempt, full.
    destruct (capacity ch <=? length (buffer ch)); cbn; auto.
  - cbn [rounds]. rewrite Hok. fold chs0. rewrite sendAll_spec.
    cbn [Nat.add]. subst r. fold m. unfold logFull. cbn [Processes].
    destruct (wake rd); cbn [chans events exit].
    + rewrite <- app_comm_cons, <- app_assoc. auto.
    + rewrite <- app_comm_cons, <- app_assoc. auto.
Qed.

(** With one empty and one full subscriber channel, both of capacity
    one, the round sends on the first, whose buffer then holds the
    message, and skips the second, whose buffer is unchanged; it counts
    one full channel. *)
Lemma CommonDiscovery_fan_out_witness :
  exists sends chs',
    sendAll 0 {| Processes := Some [samples.sshd; samples.pmon] |}
      [samples.emptyChan; samples.fullChan] 0
    = (chs', sends, 1) /\
    sends = [Sent 0 samples.withOracle; Skipped 1 samples.withOracle] /\
    buffer <$> chs' = [[samples.withOracle]; [samples.withoutOracle]].
Proof.
  destruct (CommonDiscovery_fan_out samples.goodRound []
              [samples.emptyChan; samples.fullChan]
              {| Processes := Some [samples.sshd; samples.pmon] |})
    as (_ & sends & chs' & Hsend & Hls & Hlc & Heach & _).
  - repeat constructor.
  - reflexivity.
  - exists sends, chs'. split; [exact Hsend |].
    destruct (Heach 0 samples.emptyChan eq_refl)
      as (c0 & Hc0 & _ & Hs0 & Hb0).
    destruct (Heach 1 samples.fullChan eq_refl)
      as (c1 & Hc1 & _ & Hs1 & Hb1).
    destruct sends as [|e0 [|e1 [|e2 sends]]]; try discriminate.
    destruct chs' as [|d0 [|d1 [|d2 chs']]]; try discriminate.
    injection Hs0 as ->. injection Hs1 as ->.
    injection Hc0 as ->. injection Hc1 as ->.
    split; [reflexivity |]. cbn. now rewrite Hb0, Hb1.
Defined.

End Discovery.

(** ** The insight shipper *)

Section Shipper.
Import workloadmanager.

(** The translation of the workload type, case by case: three kinds
    have an entry of their own, everything else is unspecified. *)
Lemma createWriteInsightRequest_type v wm cp :
  requestType (createWriteInsightRequest v wm cp)
  = let wt := WorkloadMetrics_WorkloadType wm in
    if decide (wt = ORACLE) then dwpb.TorsoValidation_ORACLE
    else if decide (wt = MYSQL) then dwpb.TorsoValidation_MYSQL
    else if decide (wt = REDIS) then dwpb.TorsoValidation_REDIS
    else dwpb.TorsoValidation_WORKLOAD_TYPE_UNSPECIFIED.
Proof.
  unfold requestType, createWriteInsightRequest, workloadTypeMap.
  cbn [dwpb.insight dwpb.torso_validation dwpb.WorkloadType].
  rewrite !lookup_insert, lookup_empty.
  repeat case_decide; congruence.
Qed.

(** The translation table holds no entry for POSTGRES and none for
    MONGODB: a batch of either type is shipped with the workload type
    WORKLOAD_TYPE_UNSPECIFIED. *)
Lemma createWriteInsightRequest_POSTGRES_MONGODB v metrics cp :
  requestType
    (createWriteInsightRequest v
       {| WorkloadMetrics_WorkloadType := POSTGRES; Metrics := metrics |} cp)
  = dwpb.TorsoValidation_WORKLOAD_TYPE_UNSPECIFIED /\
  requestType
    (createWriteInsightRequest v
       {| WorkloadMetrics_WorkloadType := MONGODB; Metrics := metrics |} cp)
  = dwpb.TorsoValidation_WORKLOAD_TYPE_UNSPECIFIED /\
  workloadTypeMap !! POSTGRES = None /\
  workloadTypeMap !! MONGODB = None.
Proof.
  rewrite !createWriteInsightRequest_type. cbn zeta.
  cbn [WorkloadMetrics_WorkloadType].
  unfold workloadTypeMap. rewrite !lookup_insert, !lookup_empty.
  repeat case_decide; try discriminate. auto.
Qed.

(** The kinds the table does translate, and the default. *)
Lemma createWriteInsightRequest_known v metrics cp :
  requestType
    (createWriteInsightRequest v
       {| WorkloadMetrics_WorkloadType := ORACLE; Metrics := metrics |} cp)
  = dwpb.TorsoValidation_ORACLE /\
  requestType
    (createWriteInsightRequest v
       {| WorkloadMetrics_WorkloadType := MYSQL; Metrics := metrics |} cp)
  = dwpb.TorsoValidation_MYSQL /\
  requestType
    (createWriteInsightRequest v
       {| WorkloadMetrics_WorkloadType := REDIS; Metrics := metrics |} cp)
  = dwpb.TorsoValidation_REDIS /\
  (forall wt,
      wt <> ORACLE -> wt <> MYSQL -> wt <> REDIS ->
      requestType
        (createWriteInsightRequest v
           {| WorkloadMetrics_WorkloadType := wt; Metrics := metrics |} cp)
      = dwpb.TorsoValidation_WORKLOAD_TYPE_UNSPECIFIED).
Proof.
  rewrite !createWriteInsightRequest_type. cbn zeta.
  cbn [WorkloadMetrics_WorkloadType].
  repeat split; try (repeat case_decide; congruence).
  intros wt H1 H2 H3. rewrite createWriteInsightRequest_type. cbn.
  repeat case_decide; congruence.
Qed.

(** The statement that every declared kind is translated to a value of
    its own and exactly the other kinds become WORKLOAD_TYPE_UNSPECIFIED
    fails: POSTGRES and MONGODB are declared kinds, and the request built
    for a batch of either carries WORKLOAD_TYPE_UNSPECIFIED. *)
Lemma createWriteInsightRequest_known_kinds_counterexample :
  In (WorkloadMetrics_WorkloadType samples.postgresBatch) knownKinds /\
  requestType
    (createWriteInsightRequest "1.0" samples.postgresBatch
       (Some samples.cloudProperties))
  = dwpb.TorsoValidation_WORKLOAD_TYPE_UNSPECIFIED /\
  In (WorkloadMetrics_WorkloadType samples.mongoBatch) knownKinds /\
  requestType
    (createWriteInsightRequest "1.0" samples.mongoBatch
       (Some samples.cloudProperties))
  = dwpb.TorsoValidation_WORKLOAD_TYPE_UNSPECIFIED /\
  ~ (forall v wm cp,
        requestType (createWriteInsightRequest v wm cp)
        = dwpb.TorsoValidation_WORKLOAD_TYPE_UNSPECIFIED
        <-> ~ In (WorkloadMetrics_WorkloadType wm) knownKinds).
Proof.
  assert (Hp : In (WorkloadMetrics_WorkloadType samples.postgresBatch)
                 knownKinds) by (cbn; auto).
  assert (Hm : In (WorkloadMetrics_WorkloadType samples.mongoBatch)
                 knownKinds) by (cbn; auto 6).
  assert (Hu : requestType
                 (createWriteInsightRequest "1.0" samples.postgresBatch
                    (Some samples.cloudProperties))
               = dwpb.TorsoValidation_WORKLOAD_TYPE_UNSPECIFIED).
  { rewrite createWriteInsightRequest_type. cbn zeta.
    repeat case_decide; try discriminate. reflexivity. }
  split; [exact Hp |]. split; [exact Hu |]. split; [exact Hm |].
  split.
  - rewrite createWriteInsightRequest_type. cbn zeta.
    repeat case_decide; try discriminate. reflexivity.
  - intros Hall. apply (proj1 (Hall _ _ _) Hu). exact Hp.
Qed.

(** C1, as the code has it.  The workload type of a batch is translated
    through a fixed table: ORACLE, MYSQL and REDIS become the
    TorsoValidation value of the same name, and every other type, UNKNOWN,
    POSTGRES and MONGODB among them, becomes WORKLOAD_TYPE_UNSPECIFIED.
    The workload type of the request tells the three translated kinds
    apart and nothing more. *)
Theorem createWriteInsightRequest_translation v wm cp :
  let wt := WorkloadMetrics_WorkloadType wm in
  let t := requestType (createWriteInsightRequest v wm cp) in
  (t = dwpb.TorsoValidation_ORACLE <-> wt = ORACLE) /\
  (t = dwpb.TorsoValidation_MYSQL <-> wt = MYSQL) /\
  (t = dwpb.TorsoValidation_REDIS <-> wt = REDIS) /\
  (t = dwpb.TorsoValidation_WORKLOAD_TYPE_UNSPECIFIED
   <-> wt <> ORACLE /\ wt <> MYSQL /\ wt <> REDIS) /\
  (In wt [UNKNOWN; POSTGRES; MONGODB] ->
   t = dwpb.TorsoValidation_WORKLOAD_TYPE_UNSPECIFIED).
Proof.
  cbn zeta. rewrite createWriteInsightRequest_type. cbn zeta.
  destruct wm as [wt ms]. cbn [WorkloadMetrics_WorkloadType].
  unfold ORACLE, MYSQL, REDIS, UNKNOWN, POSTGRES, MONGODB.
  repeat case_decide; subst; repeat split; intros;
    repeat match goal with
           | H : _ /\ _ |- _ => destruct H
           | H : In _ (_ :: _) |- _ => destruct H as [H | H]
           | H : In _ [] |- _ => destruct H
           end;
    congruence.
Qed.

(** A batch of the Postgres collector is shipped as unspecified, a batch
    of type ORACLE as ORACLE. *)
Lemma createWriteInsightRequest_translation_witness :
  requestType
    (createWriteInsightRequest "1.0" samples.postgresBatch
       (Some samples.cloudProperties))
  = dwpb.TorsoValidation_WORKLOAD_TYPE_UNSPECIFIED /\
  requestType
    (createWriteInsightRequest "1.0"
       {| WorkloadMetrics_WorkloadType := ORACLE; Metrics := ∅ |} None)
  = dwpb.TorsoValidation_ORACLE.
Proof.
  split.
  - apply (proj2 (proj2 (proj2 (proj2
             (createWriteInsightRequest_translation "1.0"
                samples.postgresBatch (Some samples.cloudProperties)))))).
    right. left. reflexivity.
  - apply (proj1 (createWriteInsightRequest_translation "1.0"
                    {| WorkloadMetrics_WorkloadType := ORACLE;
                       Metrics := ∅ |} None)).
    reflexivity.
Defined.

End Shipper.

(** ** The Postgres collector *)

Section Postgres.
Import sql workloadmanager postgresmetrics.

Lemma substring_prefix a b :
  substring 0 (String.length a) (a ++ b)%string = a.
Proof.
  induction a as [|c a IH].
  - cbn. now destruct b.
  - change (String c a ++ b)%string with (String c (a ++ b)).
    cbn. f_equal. exact IH.
Qed.

Lemma substring_all b : substring 0 (String.length b) b = b.
Proof.
  induction b as [|c b IH]; cbn; [reflexivity | f_equal; exact IH].
Qed.

Lemma substring_suffix a b :
  substring (String.length a) (String.length b) (a ++ b)%string = b.
Proof.
  induction a as [|c a IH].
  - apply substring_all.
  - change (String c a ++ b)%string with (String c (a ++ b)).
    cbn. exact IH.
Qed.

Lemma length_append a b :
  String.length (a ++ b)%string = String.length a + String.length b.
Proof.
  induction a as [|c a IH]; [reflexivity |].
  change (String c a ++ b)%string with (String c (a ++ b)).
  cbn. f_equal. exact IH.
Qed.

(** Printing a natural number and parsing it back. *)
Lemma ParseUint_Itoa (n : N) :
  strconv.ParseUint (strconv.Itoa (Z.of_N n)) = Some (Z.of_N n).
Proof.
  unfold strconv.ParseUint, strconv.Itoa.
  assert (Z.to_int (Z.of_N n) = Decimal.Pos (N.to_uint n)) as ->
    by now destruct n.
  cbn [NilZero.string_of_int].
  rewrite NilZero.usu.
  - cbn. now rewrite DecimalN.Unsigned.of_to.
  - destruct n as [|p]; cbn; [discriminate |].
    apply DecimalPos.Unsigned.to_uint_nonnil.
Qed.

(** The reading of a number followed by a two-letter unit. *)
Lemma parseWorkMem_unit (n : N) suffix k :
  String.length suffix = 2 ->
  unitBytes suffix = Some k ->
  parseWorkMem (strconv.Itoa (Z.of_N n) ++ suffix)%string
  = Ok (Z.of_N n * k)%Z.
Proof.
  intros Hlen Hunit. unfold parseWorkMem.
  rewrite length_append, Hlen.
  replace (String.length (strconv.Itoa (Z.of_N n)) + 2 - 2)
    with (String.length (strconv.Itoa (Z.of_N n))) by lia.
  rewrite substring_prefix.
  rewrite <- Hlen at 1. rewrite substring_suffix, Hunit.
  now rewrite ParseUint_Itoa.
Qed.

Context {W : Type} `{!WLMWriter W}.

(** C5.  Normalisation of [work_mem].  When [SHOW work_mem] answers
    with the single row "<n>kB", "<n>MB" or "<n>GB", the batch that
    [CollectMetricsOnce] ships and, the shipment raising no error,
    returns has the workload type POSTGRES and the one metric
    [work_mem], whose value is the decimal spelling of [n] times 1024,
    1024^2 or 1024^3. *)
Theorem CollectMetricsOnce_work_mem v (m : PostgresMetrics W) (n : N)
    suffix e res w' :
  In (suffix, e) [("kB", 1%Z); ("MB", 2%Z); ("GB", 3%Z)] ->
  QueryContext (db m) "SHOW work_mem"
  = (Some [Ok (strconv.Itoa (Z.of_N n) ++ suffix)%string], None) ->
  let wm :=
    {| WorkloadMetrics_WorkloadType := POSTGRES;
       Metrics := {[ "work_mem" := strconv.Itoa (Z.of_N n * 1024 ^ e) ]} |} in
  let cp := cpb.GetCloudProperties (Config m) in
  WriteInsightAndGetResponse (WLMClient m) (cpb.GetProjectId cp)
    (cpb.GetRegion cp) (createWriteInsightRequest v wm cp)
  = ((res, None), w') ->
  workMem m = Ok (Z.of_N n * 1024 ^ e)%Z /\
  (CollectMetricsOnce v m).1.1 = (Some wm, None) /\
  (CollectMetricsOnce v m).1.2 = w'.
Proof.
  intros Hunit Hquery wm cp Hship.
  assert (workMem m = Ok (Z.of_N n * 1024 ^ e)%Z) as Hmem.
  { unfold workMem. rewrite Hquery.
    destruct Hunit as [[= <- <-] | [[= <- <-] | [[= <- <-] | []]]];
      now apply parseWorkMem_unit. }
  split; [exact Hmem |].
  unfold CollectMetricsOnce. rewrite Hmem.
  unfold SendDataInsight, workMemKey.
  cbn [WLMetrics CloudProps WLMService WorkloadMetrics_WorkloadType].
  fold wm. fold cp. rewrite Hship.
  destruct res; cbn; auto.
Qed.

(** C10.  A nil response with a nil error is a success.  When the
    data-warehouse client answers the one call with neither a response
    nor an error, [SendDataInsight] returns that nil response and no
    error, leaves the client in the state reached by that single call
    and records no failure; and [CollectMetricsOnce] returns the
    collected batch with no error. *)
Theorem SendDataInsight_nil_response v :
  (forall (params : SendDataInsightParams W) w',
      WriteInsightAndGetResponse (WLMService params)
        (cpb.GetProjectId (CloudProps params))
        (cpb.GetRegion (CloudProps params))
        (createWriteInsightRequest v (WLMetrics params) (CloudProps params))
      = ((None, None), w') ->
      SendDataInsight v params
      = ((None, None), w',
         [LogSent (WorkloadMetrics_WorkloadType (WLMetrics params))])) /\
  (forall (m : PostgresMetrics W) bytes w',
      workMem m = Ok bytes ->
      let wm :=
        {| WorkloadMetrics_WorkloadType := POSTGRES;
           Metrics := {[ "work_mem" := strconv.Itoa bytes ]} |} in
      let cp := cpb.GetCloudProperties (Config m) in
      WriteInsightAndGetResponse (WLMClient m) (cpb.GetProjectId cp)
        (cpb.GetRegion cp) (createWriteInsightRequest v wm cp)
      = ((None, None), w') ->
      CollectMetricsOnce v m
      = ((Some wm, None), w', [Shipper (LogSent POSTGRES); LogNilResponse])).
Proof.
  split.
  - intros params w' Hcall. unfold SendDataInsight. now rewrite Hcall.
  - intros m bytes w' Hmem wm cp Hcall.
    unfold CollectMetricsOnce. rewrite Hmem.
    unfold SendDataInsight, workMemKey.
    cbn [WLMetrics CloudProps WLMService WorkloadMetrics_WorkloadType].
    fold wm. fold cp. now rewrite Hcall.
Qed.

End Postgres.

Section PostgresTests.
Import sql workloadmanager postgresmetrics gcefake samples.

(** The three happy paths of the test table: "80MB", "64kB" and
    "4GB". *)
Lemma CollectMetricsOnce_work_mem_witness :
  (CollectMetricsOnce "1.0" (samples.postgres "80MB" [created] [None])).1.1
  = (Some {| WorkloadMetrics_WorkloadType := POSTGRES;
             Metrics := {[ "work_mem" := "83886080" ]} |}, None) /\
  (CollectMetricsOnce "1.0" (samples.postgres "64kB" [created] [None])).1.1
  = (Some {| WorkloadMetrics_WorkloadType := POSTGRES;
             Metrics := {[ "work_mem" := "65536" ]} |}, None) /\
  (CollectMetricsOnce "1.0" (samples.postgres "4GB" [created] [None])).1.1
  = (Some {| WorkloadMetrics_WorkloadType := POSTGRES;
             Metrics := {[ "work_mem" := "4294967296" ]} |}, None).
Proof.
  split; [| split].
  - refine (proj1 (proj2
             (CollectMetricsOnce_work_mem "1.0"
                (samples.postgres "80MB" [created] [None])
                80 "MB" 2%Z created _ _ eq_refl eq_refl))).
    cbn. auto.
  - refine (proj1 (proj2
             (CollectMetricsOnce_work_mem "1.0"
                (samples.postgres "64kB" [created] [None])
                64 "kB" 1%Z created _ _ eq_refl eq_refl))).
    cbn. auto.
  - refine (proj1 (proj2
             (CollectMetricsOnce_work_mem "1.0"
                (samples.postgres "4GB" [created] [None])
                4 "GB" 3%Z created _ _ eq_refl eq_refl))).
    cbn. auto.
Defined.

(** The scripted client answering nil, nil: one call is recorded, and
    the tick returns its batch without an error. *)
Lemma SendDataInsight_nil_response_witness :
  (SendDataInsight "1.0" nilResponseParams).1.1 = (None, None) /\
  gcefake.WriteInsightCallCount (SendDataInsight "1.0" nilResponseParams).1.2
  = 1 /\
  (CollectMetricsOnce "1.0" (samples.postgres "64MB" [None] [None])).1.1
  = (Some {| WorkloadMetrics_WorkloadType := POSTGRES;
             Metrics := {[ "work_mem" := "67108864" ]} |}, None).
Proof.
  destruct (SendDataInsight_nil_response (W := gcefake.TestWLM) "1.0")
    as [Hsend Hcollect].
  pose proof (Hsend nilResponseParams _ eq_refl) as Hs.
  pose proof (Hcollect (samples.postgres "64MB" [None] [None])
                67108864%Z _ eq_refl eq_refl) as Hc.
  split; [| split].
  - now rewrite Hs.
  - now rewrite Hs.
  - now rewrite Hc.
Defined.

End PostgresTests.

(** ** The MySQL collector *)

Section MySQL.
Import sql mysqlmetrics mysql_obs.

Lemma resultSet_failed q : resultSet q = None <-> failed q.
Proof.
  destruct q as [rows [e|]]; unfold failed; cbn.
  - split; [intros _; now left | reflexivity].
  - split; [intros ->; now right | intros [H | H]; congruence].
Qed.

Lemma resultSet_returnsRow q :
  (exists rows, resultSet q = Some rows /\ Next rows = true)
  <-> returnsRow q.
Proof.
  destruct q as [rows [e|]]; unfold returnsRow; cbn.
  - split; [intros (? & [=] & _) | intros [[=] _]].
  - split.
    + intros ([|row rows'] & -> & Hnext); [discriminate |]. eauto.
    + intros (_ & row & rows' & ->). eauto.
Qed.

Lemma returnsRow_not_failed q : returnsRow q -> ~ failed q.
Proof.
  intros (Herr & row & rows & Hrows) [H | H]; congruence.
Qed.

(** C6.  Role detection.  [currentRole] reports replica exactly when
    SHOW REPLICA STATUS returns at least one row, or that query fails
    and the fallback SHOW SLAVE STATUS returns at least one row; in
    every other case the role is source, in particular when both
    queries return an error. *)
Theorem currentRole_replica_iff (m : MySQLMetrics) :
  let replica := QueryContext (db m) "SHOW REPLICA STATUS" in
  let slave := QueryContext (db m) "SHOW SLAVE STATUS" in
  (currentRole m = replicaRole <->
     returnsRow replica \/ (failed replica /\ returnsRow slave)) /\
  (~ (returnsRow replica \/ (failed replica /\ returnsRow slave)) ->
     currentRole m = sourceRole) /\
  (replica.2 <> None -> slave.2 <> None -> currentRole m = sourceRole).
Proof.
  cbn zeta. unfold currentRole.
  set (replica := QueryContext (db m) "SHOW REPLICA STATUS").
  set (slave := QueryContext (db m) "SHOW SLAVE STATUS").
  pose proof (resultSet_failed replica) as Hfail.
  pose proof (resultSet_returnsRow replica) as Hrow.
  pose proof (resultSet_returnsRow slave) as Hrow'.
  assert (replicaRole <> sourceRole) as Hne by discriminate.
  destruct (resultSet replica) as [rows|] eqn:Hr.
  - assert (~ failed replica) as Hok
      by (intros Hf; apply Hfail in Hf; discriminate).
    destruct (Next rows) eqn:Hnext.
    + assert (returnsRow replica) as Hret by (apply Hrow; eauto).
      repeat split; auto.
      * intros Hnot. exfalso. apply Hnot. now left.
      * intros Herr _. exfalso. apply Hok. now left.
    + assert (~ returnsRow replica) as Hnot.
      { intros Hret. apply Hrow in Hret as (rows' & [= <-] & Hn).
        congruence. }
      repeat split; auto.
      * intros Heq. now symmetry in Heq.
      * intros [Hret | [Hf _]]; contradiction.
  - assert (failed replica) as Hf by now apply Hfail.
    assert (~ returnsRow replica) as Hnot
      by (intros Hret; now apply returnsRow_not_failed in Hret).
    destruct (resultSet slave) as [rows|] eqn:Hs.
    + destruct (Next rows) eqn:Hnext.
      * assert (returnsRow slave) as Hret by (apply Hrow'; eauto).
        repeat split; auto.
        -- intros Hno. exfalso. apply Hno. now right.
        -- intros _ Herr. exfalso.
           apply (returnsRow_not_failed _ Hret). now left.
      * assert (~ returnsRow slave) as Hnot'.
        { intros Hret. apply Hrow' in Hret as (rows' & [= <-] & Hn).
          congruence. }
        repeat split; auto.
        -- intros Heq. now symmetry in Heq.
        -- intros [Hret | [_ Hret]]; contradiction.
    + assert (~ returnsRow slave) as Hnot'.
      { intros Hret. apply Hrow' in Hret as (rows' & Heq & _).
        discriminate. }
      repeat split; auto.
      * intros Heq. now symmetry in Heq.
      * intros [Hret | [_ Hret]]; contradiction.
Qed.

(** A server on which SHOW REPLICA STATUS fails and SHOW SLAVE STATUS
    returns a row is a replica; one on which both fail is a source. *)
Lemma currentRole_replica_iff_witness :
  currentRole (samples.mysqlDB (None, samples.testError)
                 (Some [Ok "teststring1"], None) (None, None))
  = replicaRole /\
  currentRole (samples.mysqlDB (None, samples.testError)
                 (None, samples.testError) (None, None))
  = sourceRole.
Proof.
  split.
  - apply (proj1 (currentRole_replica_iff
                    (samples.mysqlDB (None, samples.testError)
                       (Some [Ok "teststring1"], None) (None, None)))).
    right. split.
    + left. discriminate.
    + split; [reflexivity |]. now exists (Ok "teststring1"), [].
  - apply (proj2 (proj2 (currentRole_replica_iff
                           (samples.mysqlDB (None, samples.testError)
                              (None, samples.testError) (None, None)))));
      discriminate.
Defined.

(** The cases of the test table of [currentRole]. *)
Lemma currentRole_tests :
  currentRole (samples.mysqlDB (Some [Ok "teststring1"], None)
                 (None, None) (None, None)) = replicaRole /\
  currentRole (samples.mysqlDB (None, None)
                 (Some [Ok "teststring1"], None) (None, None))
  = replicaRole /\
  currentRole (samples.mysqlDB (None, samples.testError)
                 (None, None) (None, None)) = sourceRole /\
  currentRole (samples.mysqlDB (None, None)
                 (None, samples.testError) (None, None)) = sourceRole /\
  currentRole (samples.mysqlDB (None, None) (None, None) (None, None))
  = sourceRole.
Proof. repeat split. Qed.

Lemma Split_dotless a s :
  dotless a = true ->
  strings.Split (a ++ String "." s)%string "." = a :: strings.Split s ".".
Proof.
  induction a as [|c a IH]; intros Ha.
  - reflexivity.
  - cbn in Ha. apply andb_true_iff in Ha as [Hc Ha].
    change (String c a ++ String "." s)%string
      with (String c (a ++ String "." s)).
    cbn [strings.Split]. apply negb_true_iff in Hc. rewrite Hc.
    now rewrite (IH Ha).
Qed.

(** The second dotted component of "host.zone.rest" is "zone". *)
Lemma zoneOf_second host zone rest :
  dotless host = true ->
  dotless zone = true ->
  zoneOf (host ++ String "." (zone ++ String "." rest))%string = Some zone.
Proof.
  intros Hh Hz. unfold zoneOf.
  now rewrite (Split_dotless host _ Hh), (Split_dotless zone _ Hz).
Qed.

Lemma zoneOfRow_Some net row zone :
  zoneOfRow net row = Some zone <->
  exists address fqdn,
    row = Ok address /\ resolve net address = Some fqdn /\
    zoneOf fqdn = Some zone.
Proof.
  unfold zoneOfRow. destruct row as [address|e].
  - split.
    + intros H. destruct (resolve net address) as [fqdn|] eqn:Hres;
        [| discriminate].
      exists address, fqdn. auto.
    + intros (a & fqdn & [= <-] & Hres & Hz). rewrite Hres. exact Hz.
  - split; [discriminate |]. intros (a & fqdn & Heq & _). discriminate.
Qed.

(** C7.  Replication zones.  When the role is source and the query
    lists the connected replicas, the zones returned are exactly the
    second dotted components of the names that the addresses listed
    resolve to; the second dotted component of "host.zone.rest" is
    "zone", so that "host.us-central1-a.c.proj.internal." yields
    "us-central1-a".  When the role is replica no zone is returned. *)
Theorem replicationZones_zones query (m : MySQLMetrics)
    (net : netInterface) :
  (forall rows zone,
      QueryContext (db m) query = (Some rows, None) ->
      (In zone (replicationZones query m sourceRole net) <->
       exists address fqdn,
         In (Ok address) rows /\ resolve net address = Some fqdn /\
         zoneOf fqdn = Some zone)) /\
  (forall host zone rest,
      dotless host = true -> dotless zone = true ->
      zoneOf (host ++ String "." (zone ++ String "." rest))%string
      = Some zone) /\
  zoneOf "host.us-central1-a.c.proj.internal." = Some "us-central1-a" /\
  replicationZones query m replicaRole net = [].
Proof.
  split; [| split; [exact zoneOf_second | split; reflexivity]].
  intros rows zone Hq. unfold replicationZones.
  change (negb (String.eqb sourceRole sourceRole)) with false. cbv iota.
  rewrite Hq. cbn [resultSet].
  rewrite <- list_elem_of_In, elem_of_remove_dups, list_elem_of_omap.
  split.
  - intros (row & Hin & Hz).
    apply zoneOfRow_Some in Hz as (address & fqdn & -> & Hres & Hz).
    exists address, fqdn. now rewrite <- list_elem_of_In.
  - intros (address & fqdn & Hin & Hres & Hz).
    exists (Ok address). rewrite list_elem_of_In. split; [exact Hin |].
    apply zoneOfRow_Some. eauto.
Qed.

(** The happy path of the test table: the replica at 1.2.3.4 resolves
    to a name in test-zone. *)
Lemma replicationZones_zones_witness :
  In "test-zone"
    (replicationZones samples.replicationZonesQuery
       (samples.mysqlDB (None, None) (None, None)
          (Some [Ok "1.2.3.4"], None))
       sourceRole samples.mockNet).
Proof.
  apply (proj1 (replicationZones_zones samples.replicationZonesQuery
                  (samples.mysqlDB (None, None) (None, None)
                     (Some [Ok "1.2.3.4"], None))
                  samples.mockNet) [Ok "1.2.3.4"] "test-zone" eq_refl).
  exists "1.2.3.4", "testname.test-zone.c.fake-project.internal.".
  split; [now left | split; reflexivity].
Defined.

(** The cases of the test table of [replicationZones], each with the
    mock of its own. *)
Lemma replicationZones_tests :
  let zones rows role mock :=
    replicationZones samples.replicationZonesQuery
      (samples.mysqlDB (None, None) (None, None) rows) role
      (mysqltest.netMock samples.noIPv6 mock) in
  zones (Some [Ok "1.2.3.4"], None) sourceRole samples.happyPathIp
  = ["test-zone"] /\
  zones (Some [Ok "5.6.7.8"], None) sourceRole samples.happyPathIp2
  = ["test-zone2"] /\
  zones (None, None) sourceRole samples.noMock = [] /\
  zones (Some [Ok "1.241234.3.4"], None) sourceRole samples.invalidIP = [] /\
  zones (Some [Ok "1.2.3.4"], None) replicaRole samples.noMock = [] /\
  zones (Some [Ok "testname.test-zone.c.fake-project.internal."], None)
    sourceRole samples.happyPathHostname = ["test-zone"].
Proof. cbn zeta. repeat split; vm_compute; reflexivity. Qed.

(** What the mock's [ParseIP] answers on the texts of the table: the
    two addresses it knows are read as the loopback address, the text
    with a field above 255 and the host name are no addresses. *)
Lemma mockNet_ParseIP :
  ParseIP samples.mockNet "1.2.3.4"
  = Some [0; 0; 0; 0; 0; 0; 0; 0; 0; 0; 255; 255; 127; 0; 0; 1]%Z /\
  ParseIP samples.mockNet "5.6.7.8" = ParseIP samples.mockNet "1.2.3.4" /\
  ParseIP samples.mockNet "10.0.0.7"
  = Some [0; 0; 0; 0; 0; 0; 0; 0; 0; 0; 255; 255; 10; 0; 0; 7]%Z /\
  ParseIP samples.mockNet "1.241234.3.4" = None /\
  ParseIP samples.mockNet "testname.test-zone.c.fake-project.internal."
  = None /\
  ParseIP samples.mockNet EmptyString = None.
Proof. repeat split; vm_compute; reflexivity. Qed.

End MySQL.

(** ** The metric override file *)

Section Override.
Import workloadmanager override override_obs.

Variable TrimSpace : string -> string.

Local Abbreviation classify := (classify TrimSpace).
Local Abbreviation batches := (batches TrimSpace).
Local Abbreviation warningsOf := (warningsOf TrimSpace).

Lemma warningsOf_cons_invalid line lines err :
  isInvalid TrimSpace line = true ->
  warningsOf (line :: lines) err
  = WarnInvalidFormat line :: warningsOf lines err.
Proof. intros H. unfold override_obs.warningsOf. cbn. now rewrite H. Qed.

Lemma warningsOf_cons_valid line lines err :
  isInvalid TrimSpace line = false ->
  warningsOf (line :: lines) err = warningsOf lines err.
Proof. intros H. unfold override_obs.warningsOf. cbn. now rewrite H. Qed.

(** One call of [getMetric]: either it reaches the end and returns the
    only batch left, or it stops after a header, returns the batch
    before it and leaves fewer lines. *)
Lemma scan_spec lines err : forall wt ms warns,
  let r := scan TrimSpace lines err wt ms warns in
  let wm := {| WorkloadMetrics_WorkloadType := emittedType r;
               Metrics := emittedMetrics r |} in
  if last r
  then batches lines wt ms = [wm] /\
       warnings r = warns ++ warningsOf lines err
  else batches lines wt ms
       = wm :: batches (tokens (scanner (emitter r)))
                 (workloadType (emitter r)) ∅ /\
       metrics (emitter r) = Some ∅ /\
       scanErr (scanner (emitter r)) = err /\
       length (tokens (scanner (emitter r))) < length lines /\
       warns ++ warningsOf lines err
       = warnings r ++ warningsOf (tokens (scanner (emitter r))) err.
Proof.
  induction lines as [|line rest IH]; intros wt ms warns.
  - cbn. split; [reflexivity |]. unfold override_obs.warningsOf. reflexivity.
  - cbn [scan override_obs.batches]. unfold override_obs.classify.
    pose proof (warningsOf_cons_invalid line rest err) as Hinv.
    pose proof (warningsOf_cons_valid line rest err) as Hval.
    unfold isInvalid, override_obs.classify in Hinv, Hval.
    destruct (String.eqb line "" || strings_lib.HasPrefix line "#").
    { specialize (IH wt ms warns). cbn zeta in IH.
      rewrite (Hval eq_refl).
      destruct (last (scan TrimSpace rest err wt ms warns));
        [exact IH |].
      destruct IH as (H1 & H2 & H3 & H4 & H5).
      repeat split; auto. cbn [length]. lia. }
    destruct (strings_lib.Cut line ":") as [[key value] found].
    destruct found; cbn [negb].
    2:{ specialize (IH wt ms (warns ++ [WarnInvalidFormat line])).
        cbn zeta in IH. rewrite (Hinv eq_refl).
        destruct (last (scan TrimSpace rest err wt ms
                          (warns ++ [WarnInvalidFormat line]))).
        - destruct IH as [H1 H2]. split; [exact H1 |].
          now rewrite H2, <- app_assoc.
        - destruct IH as (H1 & H2 & H3 & H4 & H5).
          repeat split; auto; [cbn [length]; lia |].
          now rewrite <- H5, <- app_assoc. }
    destruct (String.eqb (TrimSpace key) "workload_type").
    + rewrite (Hval eq_refl). destruct (String.eqb wt "").
      * specialize (IH (TrimSpace value) ms warns). cbn zeta in IH.
        destruct (last (scan TrimSpace rest err (TrimSpace value) ms warns));
          [exact IH |].
        destruct IH as (H1 & H2 & H3 & H4 & H5).
        repeat split; auto. cbn [length]. lia.
      * cbn. repeat split; auto.
    + rewrite (Hval eq_refl).
      specialize (IH wt (<[TrimSpace key := TrimSpace value]> ms) warns).
      cbn zeta in IH.
      destruct (last (scan TrimSpace rest err wt
                        (<[TrimSpace key := TrimSpace value]> ms) warns));
        [exact IH |].
      destruct IH as (H1 & H2 & H3 & H4 & H5).
      repeat split; auto. cbn [length]. lia.
Qed.

(** The loop of [collectOverrideMetrics] ends within one call per line
    and one more, with the batches and the warnings of the file. *)
Lemma collectLoop_batches fuel : forall e,
  length (tokens (scanner e)) < fuel ->
  collectLoop TrimSpace fuel e
  = Some (batches (tokens (scanner e)) (workloadType e)
            (default ∅ (metrics e)),
          warningsOf (tokens (scanner e)) (scanErr (scanner e))).
Proof.
  induction fuel as [|fuel IH]; intros e Hlen; [lia |].
  cbn [collectLoop]. unfold getMetric.
  pose proof (scan_spec (tokens (scanner e)) (scanErr (scanner e))
                (workloadType e) (default ∅ (metrics e)) []) as Hscan.
  cbn zeta in Hscan.
  destruct (last (scan TrimSpace _ _ _ _ [])).
  - destruct Hscan as [-> ->]. reflexivity.
  - destruct Hscan as (-> & Hms & Herr & Hlt & Hw).
    rewrite IH by lia. rewrite Hms, Herr. cbn [default].
    cbn in Hw. now rewrite Hw.
Qed.

Lemma collectOverrideMetrics_batches sc :
  collectOverrideMetrics TrimSpace (Ok sc)
  = Some (batches (tokens sc) "" ∅, warningsOf (tokens sc) (scanErr sc)).
Proof.
  unfold collectOverrideMetrics.
  now rewrite collectLoop_batches by (cbn; lia).
Qed.

Lemma classify_isHeader line :
  isHeader TrimSpace line = true ->
  classify line = Header (headerValue TrimSpace line).
Proof.
  unfold isHeader, headerValue. now destruct (classify line).
Qed.

Lemma batches_body body : forall rest wt ms,
  (forall line, In line body -> isHeader TrimSpace line = false) ->
  batches (body ++ rest) wt ms
  = batches rest wt (foldl (addMetric TrimSpace) ms body).
Proof.
  induction body as [|line body IH]; intros rest wt ms Hbody;
    [reflexivity |].
  cbn [app override_obs.batches foldl].
  pose proof (Hbody line (or_introl eq_refl)) as Hline.
  unfold isHeader in Hline. unfold addMetric at 2.
  destruct (classify line); try discriminate;
    apply IH; intros l Hl; apply Hbody; now right.
Qed.

Lemma batches_no_header lines wt ms :
  (forall line, In line lines -> isHeader TrimSpace line = false) ->
  batches lines wt ms
  = [{| WorkloadMetrics_WorkloadType := wt;
        Metrics := foldl (addMetric TrimSpace) ms lines |}].
Proof.
  intros H. rewrite <- (app_nil_r lines) at 1.
  now rewrite batches_body.
Qed.

Lemma valuesOf_cons k line lines :
  valuesOf TrimSpace k (line :: lines)
  = match classify line with
    | Metric k' v =>
        if String.eqb k' k then v :: valuesOf TrimSpace k lines
        else valuesOf TrimSpace k lines
    | _ => valuesOf TrimSpace k lines
    end.
Proof.
  unfold valuesOf. cbn. destruct (classify line); try reflexivity.
  now destruct (String.eqb key k).
Qed.

Lemma last_Some_cons (v : string) vs :
  exists w, List.last (Some <$> v :: vs) None = Some w.
Proof.
  revert v. induction vs as [|a vs IH]; intros v.
  - now exists v.
  - destruct (IH a) as [w Hw]. exists w. exact Hw.
Qed.

(** The value a run of lines leaves for a key is the one of the last
    metric line for it. *)
Lemma foldl_addMetric_lookup k lines : forall ms,
  foldl (addMetric TrimSpace) ms lines !! k
  = match List.last (Some <$> valuesOf TrimSpace k lines) None with
    | Some v => Some v
    | None => ms !! k
    end.
Proof.
  induction lines as [|line lines IH]; intros ms; [reflexivity |].
  cbn [foldl]. rewrite IH, valuesOf_cons. unfold addMetric.
  destruct (classify line) as [| | v | k' v]; try reflexivity.
  destruct (String.eqb_spec k' k) as [-> | Hne].
  - destruct (valuesOf TrimSpace k lines) as [|v' vs].
    + cbn. now rewrite lookup_insert_eq.
    + destruct (last_Some_cons v' vs) as [w Hw]. rewrite Hw.
      change (List.last (Some <$> v :: v' :: vs) None)
        with (List.last (Some <$> v' :: vs) None).
      now rewrite Hw.
  - destruct (List.last (Some <$> valuesOf TrimSpace k lines) None);
      [reflexivity |].
    now rewrite lookup_insert_ne.
Qed.

(** X1.  A file without a header line, the empty file among them, yields
    exactly one batch: its workload type is empty, its metrics give each
    key the value of the last metric line for that key, and the request
    built for it carries the workload type WORKLOAD_TYPE_UNSPECIFIED. *)
Theorem collectOverrideMetrics_no_header sc v cp :
  (forall line, In line (tokens sc) -> isHeader TrimSpace line = false) ->
  let wm := {| WorkloadMetrics_WorkloadType := "";
               Metrics := metricsOf TrimSpace (tokens sc) |} in
  fst <$> collectOverrideMetrics TrimSpace (Ok sc) = Some [wm] /\
  (forall k,
      Metrics wm !! k
      = List.last (Some <$> valuesOf TrimSpace k (tokens sc)) None) /\
  (tokens sc = [] -> Metrics wm = ∅) /\
  requestType (createWriteInsightRequest v wm cp)
  = dwpb.TorsoValidation_WORKLOAD_TYPE_UNSPECIFIED.
Proof.
  intros Hno. cbn zeta. rewrite collectOverrideMetrics_batches.
  rewrite (batches_no_header _ _ _ Hno).
  split; [reflexivity | split; [| split]].
  - intros k. cbn [Metrics]. unfold metricsOf.
    rewrite foldl_addMetric_lookup, lookup_empty.
    now destruct (List.last _ None).
  - intros ->. reflexivity.
  - rewrite createWriteInsightRequest_type. reflexivity.
Qed.

Lemma batches_filter lines : forall wt ms,
  batches (List.filter (isUsed TrimSpace) lines) wt ms = batches lines wt ms.
Proof.
  induction lines as [|line lines IH]; intros wt ms; [reflexivity |].
  cbn [List.filter override_obs.batches]. unfold isUsed.
  destruct (classify line) eqn:Hc; try apply IH;
    cbn [override_obs.batches]; rewrite Hc.
  - destruct (String.eqb wt ""); now rewrite IH.
  - apply IH.
Qed.

(** X2.  Empty lines, comment lines and lines without a colon have no
    part in the batches: removing them from the file leaves the batches
    as they are. *)
Theorem collectOverrideMetrics_unused_lines sc err :
  fst <$> collectOverrideMetrics TrimSpace
            (Ok {| tokens := List.filter (isUsed TrimSpace) (tokens sc);
                   scanErr := err |})
  = fst <$> collectOverrideMetrics TrimSpace (Ok sc).
Proof.
  rewrite !collectOverrideMetrics_batches. cbn [tokens].
  now rewrite batches_filter.
Qed.

Lemma batches_groups groups : forall wt ms,
  wt <> "" ->
  (forall group, In group groups ->
     isHeader TrimSpace group.1 = true /\
     headerValue TrimSpace group.1 <> "" /\
     forall line, In line group.2 -> isHeader TrimSpace line = false) ->
  batches (linesOf groups) wt ms
  = {| WorkloadMetrics_WorkloadType := wt; Metrics := ms |}
      :: (batchOf TrimSpace <$> groups).
Proof.
  induction groups as [|[h body] groups IH]; intros wt ms Hwt Hgood;
    [reflexivity |].
  destruct (Hgood (h, body) (or_introl eq_refl)) as (Hh & Hv & Hbody).
  cbn [fst snd] in Hh, Hv, Hbody.
  unfold linesOf. cbn [fmap list_fmap concat fst snd app].
  fold (linesOf groups).
  cbn [override_obs.batches]. rewrite (classify_isHeader h Hh).
  apply String.eqb_neq in Hwt. rewrite Hwt.
  rewrite batches_body by exact Hbody.
  rewrite IH; [reflexivity | exact Hv |].
  intros group Hin. apply Hgood. now right.
Qed.

(** X3.  A file made of groups, each a header line with a value that is
    not empty followed by lines that are not headers, yields one batch
    per group, in order: the batch has the value of the header as its
    workload type and the metrics of the lines of the group. *)
Theorem collectOverrideMetrics_groups groups err :
  groups <> [] ->
  (forall group, In group groups ->
     isHeader TrimSpace group.1 = true /\
     headerValue TrimSpace group.1 <> "" /\
     forall line, In line group.2 -> isHeader TrimSpace line = false) ->
  fst <$> collectOverrideMetrics TrimSpace
            (Ok {| tokens := linesOf groups; scanErr := err |})
  = Some (batchOf TrimSpace <$> groups).
Proof.
  intros Hne Hgood. rewrite collectOverrideMetrics_batches.
  cbn [tokens fmap option_fmap option_map fst]. f_equal.
  destruct groups as [|[h body] groups]; [congruence |].
  destruct (Hgood (h, body) (or_introl eq_refl)) as (Hh & Hv & Hbody).
  cbn [fst snd] in Hh, Hv, Hbody.
  unfold linesOf. cbn [fmap list_fmap concat fst snd app].
  fold (linesOf groups).
  cbn [override_obs.batches]. rewrite (classify_isHeader h Hh).
  cbn [String.eqb]. rewrite batches_body by exact Hbody.
  rewrite batches_groups; [reflexivity | exact Hv |].
  intros group Hin. apply Hgood. now right.
Qed.

Lemma filter_isInvalid_app l1 l2 :
  List.filter (isInvalid TrimSpace) (l1 ++ l2)
  = List.filter (isInvalid TrimSpace) l1
    ++ List.filter (isInvalid TrimSpace) l2.
Proof. apply List.filter_app. Qed.

(** X4.  Metric lines that come before the first header belong to the
    workload of that header: the file reads as if the header came
    first. *)
Theorem collectOverrideMetrics_preamble pre h rest err :
  (forall line, In line pre -> isHeader TrimSpace line = false) ->
  isHeader TrimSpace h = true ->
  collectOverrideMetrics TrimSpace
    (Ok {| tokens := pre ++ h :: rest; scanErr := err |})
  = collectOverrideMetrics TrimSpace
      (Ok {| tokens := h :: pre ++ rest; scanErr := err |}).
Proof.
  intros Hpre Hh. rewrite !collectOverrideMetrics_batches.
  cbn [tokens scanErr]. f_equal. f_equal.
  - rewrite batches_body by exact Hpre.
    cbn [override_obs.batches]. rewrite (classify_isHeader h Hh).
    cbn [String.eqb]. now rewrite batches_body by exact Hpre.
  - unfold override_obs.warningsOf. f_equal. f_equal.
    assert (isInvalid TrimSpace h = false) as Hinv.
    { unfold isInvalid. now rewrite (classify_isHeader h Hh). }
    rewrite filter_isInvalid_app. cbn [List.filter]. rewrite Hinv.
    now rewrite filter_isInvalid_app.
Qed.

Lemma batches_length lines : forall wt ms,
  1 <= length (batches lines wt ms) /\
  length (batches lines wt ms)
  <= (if String.eqb wt ""
      then Nat.max 1 (length (List.filter (isHeader TrimSpace) lines))
      else 1 + length (List.filter (isHeader TrimSpace) lines)).
Proof.
  induction lines as [|line lines IH]; intros wt ms.
  - cbn. destruct (String.eqb wt ""); lia.
  - cbn [override_obs.batches List.filter].
    assert (isHeader TrimSpace line
            = match classify line with
              | Header _ => true
              | _ => false
              end) as -> by reflexivity.
    destruct (classify line) as [| | v | k v] eqn:Hc; try apply IH.
    destruct (String.eqb wt "").
    + destruct (IH v ms) as [Hlo Hhi]. split; [exact Hlo |].
      cbn [length]. destruct (String.eqb v ""); lia.
    + destruct (IH v ∅) as [Hlo Hhi]. cbn [length]. split; [lia |].
      destruct (String.eqb v ""); lia.
Qed.

(** X5.  [collectOverrideMetrics] always comes to an end.  When the file
    cannot be read it returns no batch; otherwise it returns at least
    one batch and at most as many as the file has header lines (one if
    it has none). *)
Theorem collectOverrideMetrics_bounds file :
  match file with
  | Err e =>
      collectOverrideMetrics TrimSpace file
      = Some ([], [DebugCouldNotRead e])
  | Ok sc =>
      exists wms warns,
        collectOverrideMetrics TrimSpace file = Some (wms, warns) /\
        1 <= length wms /\
        length wms
        <= Nat.max 1 (length (List.filter (isHeader TrimSpace) (tokens sc)))
  end.
Proof.
  destruct file as [sc|e]; [| reflexivity].
  rewrite collectOverrideMetrics_batches. eexists _, _.
  split; [reflexivity |]. apply (batches_length (tokens sc) "" ∅).
Qed.

Lemma Cut_found s sep :
  (strings_lib.Cut s sep).2
  = existsb (Ascii.eqb sep) (list_ascii_of_string s).
Proof.
  induction s as [|c s IH]; [reflexivity |].
  cbn [strings_lib.Cut list_ascii_of_string existsb].
  rewrite (Ascii.eqb_sym sep c).
  destruct (Ascii.eqb c sep); [reflexivity |].
  destruct (strings_lib.Cut s sep) as [[before after] found].
  cbn in *. exact IH.
Qed.

Lemma isInvalid_spec line :
  isInvalid TrimSpace line
  = negb (String.eqb line "") && negb (String.prefix "#" line)
    && negb (existsb (Ascii.eqb ":") (list_ascii_of_string line)).
Proof.
  unfold isInvalid, override_obs.classify, strings_lib.HasPrefix.
  rewrite <- Cut_found.
  destruct (String.eqb line ""); [reflexivity |].
  destruct (String.prefix "#" line); [reflexivity |].
  destruct (strings_lib.Cut line ":") as [[key value] found].
  cbn [orb negb andb snd].
  destruct found; cbn [negb]; [| reflexivity].
  now destruct (String.eqb (TrimSpace key) "workload_type").
Qed.

(** X6.  The warnings logged while the file is read are, in the order
    of the file, one per line that is not empty, does not start with
    "#" and holds no colon, followed by the error of the scanner if it
    has one. *)
Theorem collectOverrideMetrics_warnings sc :
  snd <$> collectOverrideMetrics TrimSpace (Ok sc)
  = Some ((WarnInvalidFormat
             <$> List.filter
                   (fun line =>
                      negb (String.eqb line "")
                      && negb (String.prefix "#" line)
                      && negb (existsb (Ascii.eqb ":")
                                 (list_ascii_of_string line)))
                   (tokens sc))
          ++ match scanErr sc with
             | Some e => [WarnScanner e]
             | None => []
             end).
Proof.
  rewrite collectOverrideMetrics_batches.
  cbn [fmap option_fmap option_map snd]. unfold override_obs.warningsOf.
  do 3 f_equal. apply List.filter_ext. intros line. apply isInvalid_spec.
Qed.

Lemma Cut_first before after sep :
  existsb (Ascii.eqb sep) (list_ascii_of_string before) = false ->
  strings_lib.Cut (before ++ String sep after)%string sep
  = (before, after, true).
Proof.
  induction before as [|c before IH]; intros Hno.
  - change ("" ++ String sep after)%string with (String sep after).
    cbn [strings_lib.Cut]. now rewrite Ascii.eqb_refl.
  - cbn [list_ascii_of_string existsb] in Hno.
    apply orb_false_iff in Hno as [Hc Hno].
    change (String c before ++ String sep after)%string
      with (String c (before ++ String sep after)).
    cbn [strings_lib.Cut]. rewrite Ascii.eqb_sym, Hc.
    now rewrite (IH Hno).
Qed.

(** X7.  A metric line is split at its first colon, so that the value
    may hold colons of its own: after a file without headers, the line
    "key:value" whose key holds no colon sets the trimmed key to the
    trimmed value in the one batch, and leaves the other keys as they
    were. *)
Theorem collectOverrideMetrics_metric_line lines key value err :
  (forall line, In line lines -> isHeader TrimSpace line = false) ->
  existsb (Ascii.eqb ":") (list_ascii_of_string key) = false ->
  String.prefix "#" (key ++ String ":" value) = false ->
  TrimSpace key <> "workload_type" ->
  fst <$> collectOverrideMetrics TrimSpace
            (Ok {| tokens := lines ++ [(key ++ String ":" value)%string];
                   scanErr := err |})
  = Some [{| WorkloadMetrics_WorkloadType := "";
             Metrics := <[TrimSpace key := TrimSpace value]>
                          (metricsOf TrimSpace lines) |}].
Proof.
  intros Hno Hkey Hcomment Hname.
  rewrite collectOverrideMetrics_batches. cbn [tokens].
  rewrite batches_body by exact Hno.
  cbn [override_obs.batches]. unfold override_obs.classify.
  unfold strings_lib.HasPrefix. rewrite Hcomment.
  assert (String.eqb (key ++ String ":" value) "" = false) as ->.
  { apply String.eqb_neq. now destruct key. }
  cbn [orb]. rewrite (Cut_first key value ":" Hkey). cbn [negb].
  apply String.eqb_neq in Hname. rewrite Hname. reflexivity.
Qed.

End Override.

Section OverrideTests.
Import workloadmanager override override_obs override_samples.

(** A file of comments and metrics only: one batch of empty type, in
    which the second value of [a] has replaced the first. *)
Lemma collectOverrideMetrics_no_header_witness :
  fst <$> collectOverrideMetrics trimASCII (Ok plainFile)
  = Some [{| WorkloadMetrics_WorkloadType := "";
             Metrics := metricsOf trimASCII (tokens plainFile) |}] /\
  metricsOf trimASCII (tokens plainFile) !! "a" = Some "2".
Proof.
  assert (forall line, In line (tokens plainFile) ->
                       isHeader trimASCII line = false) as Hno.
  { intros line Hin. cbn in Hin.
    repeat (destruct Hin as [<- | Hin]; [reflexivity |]).
    destruct Hin. }
  destruct (collectOverrideMetrics_no_header trimASCII plainFile "1.0" None
              Hno) as (H1 & H2 & _).
  split; [exact H1 |]. exact (H2 "a").
Defined.

(** The comment, the lines without a colon and the blank line of the
    MySQL group can go. *)
Lemma collectOverrideMetrics_unused_lines_witness :
  fst <$> collectOverrideMetrics trimASCII
            (Ok {| tokens :=
                     ["workload_type: MYSQL"; "version : 8.0";
                      "url: http://db:3306"];
                   scanErr := None |})
  = fst <$> collectOverrideMetrics trimASCII
              (Ok {| tokens := linesOf [mysqlGroup]; scanErr := None |}).
Proof.
  exact (collectOverrideMetrics_unused_lines trimASCII
           {| tokens := linesOf [mysqlGroup]; scanErr := None |} None).
Defined.

Lemma sample_groups group :
  In group [mysqlGroup; redisGroup] ->
  isHeader trimASCII group.1 = true /\
  headerValue trimASCII group.1 <> "" /\
  forall line, In line group.2 -> isHeader trimASCII line = false.
Proof.
  intros [<- | [<- | []]]; (split; [reflexivity | split; [discriminate |]]);
    intros line Hin; cbn in Hin;
    repeat (destruct Hin as [<- | Hin]; [reflexivity |]); destruct Hin.
Qed.

(** Two groups, two batches: MYSQL with its version and URL, REDIS with
    the port given last. *)
Lemma collectOverrideMetrics_groups_witness :
  fst <$> collectOverrideMetrics trimASCII
            (Ok {| tokens := linesOf [mysqlGroup; redisGroup];
                   scanErr := None |})
  = Some [batchOf trimASCII mysqlGroup; batchOf trimASCII redisGroup] /\
  WorkloadMetrics_WorkloadType (batchOf trimASCII redisGroup) = REDIS /\
  Metrics (batchOf trimASCII redisGroup) !! "port" = Some "6380" /\
  Metrics (batchOf trimASCII mysqlGroup) !! "url" = Some "http://db:3306".
Proof.
  split; [| repeat split].
  apply (collectOverrideMetrics_groups trimASCII [mysqlGroup; redisGroup]
           None); [discriminate | exact sample_groups].
Defined.

(** A metric line above the first header. *)
Lemma collectOverrideMetrics_preamble_witness :
  collectOverrideMetrics trimASCII
    (Ok {| tokens := ["owner: dba"] ++ "workload_type: MYSQL" :: ["a: 1"];
           scanErr := None |})
  = collectOverrideMetrics trimASCII
      (Ok {| tokens := "workload_type: MYSQL" :: ["owner: dba"] ++ ["a: 1"];
             scanErr := None |}).
Proof.
  apply (collectOverrideMetrics_preamble trimASCII ["owner: dba"]
           "workload_type: MYSQL" ["a: 1"] None).
  - intros line [<- | []]. reflexivity.
  - reflexivity.
Defined.

(** A value with colons of its own. *)
Lemma collectOverrideMetrics_metric_line_witness :
  fst <$> collectOverrideMetrics trimASCII
            (Ok {| tokens := ["a: 1"] ++ ["url: http://db:3306"];
                   scanErr := None |})
  = Some [{| WorkloadMetrics_WorkloadType := "";
             Metrics := <[trimASCII "url" := trimASCII " http://db:3306"]>
                          (metricsOf trimASCII ["a: 1"]) |}].
Proof.
  apply (collectOverrideMetrics_metric_line trimASCII ["a: 1"] "url"
           " http://db:3306" None).
  - intros line [<- | []]. reflexivity.
  - reflexivity.
  - reflexivity.
  - discriminate.
Defined.

End OverrideTests.

(** ** The shipper and its quiet variant *)

Section ShipperCalls.
Import workloadmanager.

Context {W : Type} `{!WLMWriter W}.

(** X8.  [SendDataInsight] makes the one call [QuietSendDataInsight]
    makes and leaves the client in the same state.  It returns the same
    error; it returns the response of the call only when there is no
    error, a response that comes with an error being dropped; and it
    records the usage-metric error exactly when there is an error. *)
Theorem SendDataInsight_QuietSendDataInsight v
    (params : SendDataInsightParams W) :
  let quiet := QuietSendDataInsight v params in
  let loud := SendDataInsight v params in
  loud.1.2 = quiet.2 /\
  loud.1.1.2 = quiet.1.2 /\
  loud.1.1.1 = match quiet.1.2 with
               | Some _ => None
               | None => quiet.1.1
               end /\
  (In UsageError_DataWarehouseWriteInsightFailure loud.2
   <-> quiet.1.2 <> None).
Proof.
  cbn zeta. unfold SendDataInsight, QuietSendDataInsight.
  destruct (WriteInsightAndGetResponse _ _ _ _) as [[res [e|]] w]; cbn.
  - split; [reflexivity | split; [reflexivity | split; [reflexivity |]]].
    split; [discriminate | auto].
  - split; [reflexivity | split; [reflexivity | split; [reflexivity |]]].
    split.
    + intros [H | []]. discriminate.
    + intros H. now contradiction H.
Qed.

End ShipperCalls.

(** ** The snapshot of processes *)

Section Snapshot.
Import servicecommunication oracle oracle_obs inbound_obs.

Lemma handleMessage_processes msg s :
  processes (handleMessage msg s)
  = if isDiscovery msg then Processes (Result msg) else processes s.
Proof.
  unfold handleMessage, isDiscovery. destruct (Origin msg); try reflexivity.
  now destruct (scan_fields (range (Processes (Result msg)))
                  (set_processes (Processes (Result msg)) s)) as [-> _].
Qed.

(** X9.  The snapshot keeps no history: after any sequence of messages
    it is the process list of the last message of origin Discovery, a
    nil list included, and the snapshot held before when no such message
    came. *)
Theorem inbound_processes msgs s :
  processes (inbound msgs s)
  = match List.last (Some <$> List.filter isDiscovery msgs) None with
    | Some msg => Processes (Result msg)
    | None => processes s
    end.
Proof.
  induction msgs as [|msg msgs IH] using rev_ind; [reflexivity |].
  rewrite inbound_app. cbn [inbound foldl].
  change (checkServiceCommunication false (Recv msg) (inbound msgs s))
    with (handleMessage msg (inbound msgs s)).
  rewrite handleMessage_processes, List.filter_app. cbn [List.filter].
  destruct (isDiscovery msg).
  - rewrite fmap_app. cbn [fmap list_fmap]. now rewrite last_last.
  - now rewrite app_nil_r.
Qed.

End Snapshot.

(** ** The outcomes of [Start] *)

Section StartOutcome.
Import servicecommunication oracle oracle_obs.

Lemma poll_false arrivals : forall s,
  (poll arrivals s).2 = false ->
  forall k, k < length arrivals -> flagAt arrivals s k = false.
Proof.
  intros s Hpoll k Hk.
  destruct (flagAt arrivals s k) eqn:Hflag; [| reflexivity].
  destruct (poll_present arrivals s k Hk Hflag) as (j & _ & Heq).
  rewrite Heq in Hpoll. discriminate.
Qed.

Lemma poll_true arrivals : forall s,
  (poll arrivals s).2 = true ->
  exists k, k < length arrivals /\ flagAt arrivals s k = true.
Proof.
  induction arrivals as [|msgs rest IH]; intros s; [discriminate |].
  cbn [poll]. destruct (isProcessPresent (inbound msgs s)) eqn:H0.
  - intros _. exists 0. split; [cbn; lia |].
    unfold flagAt. now rewrite stateAt_0.
  - destruct (poll rest (inbound msgs s)) as [[evs s'] ok] eqn:Hp.
    cbn. intros ->. destruct (IH (inbound msgs s)) as (k & Hk & Hflag).
    { now rewrite Hp. }
    exists (S k). split; [cbn; lia |].
    unfold flagAt in *. now rewrite stateAt_cons.
Qed.

Lemma startLoops_outcome GOOS s :
  outcome (startLoops GOOS s)
  = if String.eqb GOOS "linux" then AwaitingCtxDone else Returned.
Proof.
  unfold startLoops. destruct (String.eqb GOOS "linux"); cbn [negb].
  - destruct (cpb.GetDiscoveryEnabled _); cbn;
      destruct (cpb.GetMetricsEnabled _); reflexivity.
  - reflexivity.
Qed.

(** X10.  The four outcomes of [Start].  It panics exactly when the
    configuration has no Oracle section; it is still polling at the end
    of the script exactly when [enabled] is unset and no read has seen
    the flag set; it waits for cancellation, its loops started, exactly
    when it passes the enabled gate on Linux; and it has returned
    exactly when [enabled] is false or it passes the gate on another
    operating system. *)
Theorem Start_outcome GOOS arrivals s :
  let oc := cpb.GetOracleConfiguration (Config s) in
  let run := Start GOOS arrivals s in
  (outcome run = PanicNilConfiguration <-> oc = None) /\
  (outcome run = Polling <->
     (exists c, oc = Some c /\ cpb.Enabled c = None) /\
     forall k, k < length arrivals -> flagAt arrivals s k = false) /\
  (outcome run = AwaitingCtxDone <->
     passesEnabledGate arrivals s /\ GOOS = "linux") /\
  (outcome run = Returned <->
     (exists c, oc = Some c /\ cpb.Enabled c = Some false) \/
     (passesEnabledGate arrivals s /\ GOOS <> "linux")).
Proof.
  cbn zeta. unfold Start, passesEnabledGate.
  destruct (cpb.GetOracleConfiguration (Config s)) as [[en d m]|].
  2:{ cbn. repeat split; try discriminate; try tauto.
      - intros [(c & [=] & _) _].
      - intros [(c & [=] & _) | [[] _]]. }
  cbn [cpb.Enabled cpb.GetEnabled outcome prepend].
  destruct en as [[|]|].
  - cbv iota. rewrite startLoops_outcome.
    destruct (String.eqb_spec GOOS "linux") as [-> | Hos].
    + repeat split; try discriminate; auto.
      * intros [(c & [= <-] & Hc) _]. discriminate.
      * intros [(c & [= <-] & Hc) | [_ H]]; [discriminate | congruence].
    + repeat split; try discriminate; auto.
      * intros [(c & [= <-] & Hc) _]. discriminate.
      * tauto.
  - cbv iota. cbn [outcome]. repeat split; try discriminate; eauto.
    + intros [(c & [= <-] & Hc) _]. discriminate.
    + intros [[=] _].
  - destruct (poll arrivals s) as [[evs s'] present] eqn:Hpoll.
    destruct present.
    + cbn [outcome prepend]. rewrite startLoops_outcome.
      assert (exists k, k < length arrivals /\ flagAt arrivals s k = true)
        as Hex by (apply poll_true; now rewrite Hpoll).
      destruct (String.eqb_spec GOOS "linux") as [-> | Hos].
      * repeat split; try discriminate; auto.
        -- intros [_ Hall]. destruct Hex as (k & Hk & Hflag).
           rewrite (Hall k Hk) in Hflag. discriminate.
        -- intros [(c & [= <-] & Hc) | [_ H]]; [discriminate | congruence].
      * repeat split; try discriminate; auto.
        -- intros [_ Hall]. destruct Hex as (k & Hk & Hflag).
           rewrite (Hall k Hk) in Hflag. discriminate.
        -- tauto.
    + cbn [outcome].
      assert (forall k, k < length arrivals -> flagAt arrivals s k = false)
        as Hall by (apply poll_false; now rewrite Hpoll).
      repeat split; try discriminate; eauto.
      * intros [(k & Hk & Hflag) _]. rewrite (Hall k Hk) in Hflag.
        discriminate.
      * intros [(c & [= <-] & Hc) | [(k & Hk & Hflag) _]];
          [discriminate |].
        rewrite (Hall k Hk) in Hflag. discriminate.
Qed.

(** On Linux the service enabled by configuration waits for
    cancellation; unset and with no Oracle process reported it keeps
    polling. *)
Lemma Start_outcome_witness :
  outcome (Start "linux" [] (samples.oracleService (Some true)))
  = AwaitingCtxDone /\
  outcome (Start "linux" [[samples.withoutOracle]]
             (samples.oracleService None)) = Polling.
Proof.
  split.
  - apply (proj1 (proj2 (proj2
             (Start_outcome "linux" [] (samples.oracleService (Some true)))))).
    split; reflexivity.
  - apply (proj1 (proj2
             (Start_outcome "linux" [[samples.withoutOracle]]
                (samples.oracleService None)))).
    split.
    + eexists. split; reflexivity.
    + intros k Hk. cbn in Hk. assert (k = 0) as -> by lia. reflexivity.
Defined.

End StartOutcome.

(** ** The fan-out over several rounds *)

Section FanOut.
Import servicecommunication discovery discovery_obs fanout_obs.

Lemma continues_dec rd : continues rd \/ ~ continues rd.
Proof.
  unfold continues.
  destruct ((commonDiscoveryLoop (listing rd)).2) as [e|];
    [right; intros [[=] _] |].
  destruct (wake rd); [right; intros [_ [=]] | now left].
Qed.

Lemma rounds_stop rd after chs :
  ~ continues rd ->
  rounds (rd :: after) chs = rounds [rd] chs /\
  exit (rounds [rd] chs) <> StillRunning.
Proof.
  unfold continues. intros Hstop. cbn [rounds].
  destruct (commonDiscoveryLoop (listing rd)) as [r [e|]];
    [split; [reflexivity | discriminate] |].
  destruct (sendAll 0 r (receiveAll (received rd) chs) 0)
    as [[chs' sends] fullChs].
  destruct (wake rd); [split; [reflexivity | discriminate] |].
  exfalso. apply Hstop. split; reflexivity.
Qed.

(** X11.  The fan-out ends at the first round that does not continue,
    be it for a failed listing, for an empty listing or for the
    cancellation of the context: the rounds scripted after it never run.
    While every round continues the routine is still running. *)
Theorem rounds_first_stop script chs :
  (exit (rounds script chs) = StillRunning <-> Forall continues script) /\
  (forall before rd after,
      script = before ++ rd :: after ->
      Forall continues before ->
      ~ continues rd ->
      rounds script chs = rounds (before ++ [rd]) chs).
Proof.
  split.
  - revert chs. induction script as [|rd script IH]; intros chs.
    + split; [constructor | reflexivity].
    + destruct (continues_dec rd) as [Hc | Hstop].
      * pose proof (rounds_app [rd] script chs (Forall_cons_2 _ _ _ Hc
                      (Forall_nil_2 _))) as Happ.
        cbn [app] in Happ. rewrite Happ. cbn [exit]. rewrite IH.
        split; [now constructor | now intros H%Forall_cons_1].
      * destruct (rounds_stop rd script chs Hstop) as [-> Hexit].
        split; [contradiction |].
        intros H%Forall_cons_1. now destruct H.
  - intros before rd after -> Hall Hstop.
    rewrite !(rounds_app before) by exact Hall.
    now destruct (rounds_stop rd after (chans (rounds before chs)) Hstop)
      as [-> _].
Qed.

(** A run cancelled in its second round: the third round is not run. *)
Lemma rounds_first_stop_witness :
  rounds ([samples.goodRound]
            ++ {| received := []; listing := (Some [samples.sshd], None);
                  wake := CtxDone |} :: [samples.goodRound])
    [samples.emptyChan]
  = rounds ([samples.goodRound]
              ++ [{| received := []; listing := (Some [samples.sshd], None);
                     wake := CtxDone |}])
      [samples.emptyChan].
Proof.
  apply (proj2 (rounds_first_stop _ [samples.emptyChan])
           [samples.goodRound]
           {| received := []; listing := (Some [samples.sshd], None);
              wake := CtxDone |}
           [samples.goodRound] eq_refl).
  - repeat constructor.
  - intros [_ [=]].
Defined.

Lemma receiveAll_imap chs : forall ns,
  receiveAll ns chs = imap (fun i ch => receive (nth i ns 0) ch) chs.
Proof.
  unfold receiveAll.
  induction chs as [|ch chs IH]; intros ns.
  - now rewrite zip_with_nil_r.
  - destruct ns as [|n ns]; cbn [length app Nat.sub replicate zip_with imap].
    + f_equal. specialize (IH []). cbn [app length] in IH.
      rewrite Nat.sub_0_r in IH. rewrite IH.
      apply imap_ext. intros i x _. cbn. now destruct i.
    + f_equal. rewrite IH. apply imap_ext. intros i x _. reflexivity.
Qed.

Lemma map_list_fmap {A B} (f : A -> B) (l : list A) : map f l = f <$> l.
Proof. reflexivity. Qed.

(** The channel of index [i] after a run. *)
Lemma rounds_chans_lookup script : forall chs i,
  chans (rounds script chs) !! i = channelRun script i <$> chs !! i.
Proof.
  induction script as [|rd script IH]; intros chs i.
  - cbn. now destruct (chs !! i).
  - cbn [rounds]. rewrite receiveAll_imap.
    destruct (commonDiscoveryLoop (listing rd)) as [r [e|]] eqn:Hloop.
    + cbn [chans]. rewrite list_lookup_imap.
      destruct (chs !! i) as [ch|]; [| reflexivity]. cbn.
      now rewrite Hloop.
    + rewrite sendAll_spec, map_list_fmap. destruct (wake rd) eqn:Hwake.
      * cbn [chans]. rewrite list_lookup_fmap, list_lookup_imap.
        destruct (chs !! i) as [ch|]; [| reflexivity]. cbn.
        now rewrite Hloop, Hwake.
      * cbn [chans]. rewrite IH, list_lookup_fmap, list_lookup_imap.
        destruct (chs !! i) as [ch|]; [| reflexivity]. cbn.
        now rewrite Hloop, Hwake.
Qed.

(** X12.  The subscribers do not interfere.  After any run the channel
    of a subscriber is what the run does to that channel alone: it
    depends on its own buffer, its own capacity and its own receives,
    and on no other channel, however full. *)
Theorem rounds_channels script chs :
  chans (rounds script chs) = imap (channelRun script) chs.
Proof.
  apply list_eq. intros i.
  rewrite list_lookup_imap. apply rounds_chans_lookup.
Qed.

Lemma channelRun_capacity script i : forall ch,
  capacity (channelRun script i ch) = capacity ch /\
  (withinCapacity ch -> withinCapacity (channelRun script i ch)).
Proof.
  assert (forall n ch, capacity (receive n ch) = capacity ch /\
                       (withinCapacity ch -> withinCapacity (receive n ch)))
    as Hrecv.
  { intros n ch. split; [reflexivity |]. unfold withinCapacity. cbn.
    rewrite length_drop. lia. }
  assert (forall m ch, capacity (deliver m ch) = capacity ch /\
                       (withinCapacity ch -> withinCapacity (deliver m ch)))
    as Hdel.
  { intros m ch. unfold deliver, full, withinCapacity.
    destruct (Nat.leb_spec (capacity ch) (length (buffer ch))).
    - auto.
    - cbn. rewrite length_app. cbn. split; [reflexivity | lia]. }
  induction script as [|rd script IH]; intros ch; [cbn; auto |].
  cbn [channelRun].
  destruct (Hrecv (nth i (received rd) 0) ch) as [Hc1 Hw1].
  destruct (commonDiscoveryLoop (listing rd)) as [r [e|]]; [auto |].
  destruct (Hdel {| Origin := Discovery; Result := r |}
              (receive (nth i (received rd) 0) ch)) as [Hc2 Hw2].
  destruct (wake rd).
  - rewrite Hc2, Hc1. auto.
  - destruct (IH (deliver {| Origin := Discovery; Result := r |}
                    (receive (nth i (received rd) 0) ch))) as [Hc3 Hw3].
    rewrite Hc3, Hc2, Hc1. auto.
Qed.

(** X13.  The fan-out keeps the subscribers as they are and never
    overfills them: after any run there are the same channels with the
    same capacities, and channels that held no more than their capacity
    still do. *)
Theorem rounds_capacity script chs :
  capacity <$> chans (rounds script chs) = capacity <$> chs /\
  (Forall withinCapacity chs ->
   Forall withinCapacity (chans (rounds script chs))).
Proof.
  split.
  - apply list_eq. intros i.
    rewrite !list_lookup_fmap, rounds_chans_lookup.
    destruct (chs !! i) as [ch|]; [| reflexivity]. cbn. f_equal.
    apply (channelRun_capacity script i ch).
  - intros Hall. apply Forall_lookup. intros i ch' Hlook.
    rewrite rounds_chans_lookup in Hlook.
    destruct (chs !! i) as [ch|] eqn:Hch; [| discriminate].
    injection Hlook as <-.
    apply (channelRun_capacity script i ch).
    exact (proj1 (Forall_lookup _ _) Hall i ch Hch).
Qed.

(** A full channel and an empty one, after two rounds without a
    receive. *)
Lemma rounds_capacity_witness :
  Forall withinCapacity
    (chans (rounds [samples.goodRound; samples.goodRound]
              [samples.emptyChan; samples.fullChan])).
Proof.
  apply (proj2 (rounds_capacity [samples.goodRound; samples.goodRound]
                  [samples.emptyChan; samples.fullChan])).
  repeat constructor.
Defined.

Lemma In_imap_attempt m chs : forall i0 i m',
  In (Sent i m') (imap (fun j => attempt m (i0 + j)) chs) -> m' = m.
Proof.
  induction chs as [|ch chs IH]; intros i0 i m' Hin; [destruct Hin |].
  cbn [imap] in Hin. destruct Hin as [Heq | Hin].
  - unfold attempt in Heq. destruct (full ch); congruence.
  - apply (IH (S i0) i m').
    erewrite imap_ext; [exact Hin |].
    intros j x _. cbn. f_equal. lia.
Qed.

(** X14.  Every message the fan-out sends has the origin Discovery and
    lists at least one process; an Oracle service that handles it takes
    that list as its snapshot, which is then not nil. *)
Theorem rounds_sent script : forall chs i m,
  In (Sent i m) (events (rounds script chs)) ->
  Origin m = Discovery /\
  1 <= len (Processes (Result m)) /\
  forall s,
    oracle.processes (oracle.handleMessage m s) = Processes (Result m) /\
    oracle.processes (oracle.handleMessage m s) <> None.
Proof.
  induction script as [|rd script IH]; intros chs i m Hin; [destruct Hin |].
  cbn [rounds] in Hin.
  destruct (commonDiscoveryLoop (listing rd)) as [r [e|]] eqn:Hloop.
  { cbn in Hin. destruct Hin as [[=] | []]. }
  rewrite sendAll_spec in Hin.
  assert (In (Sent i m)
            (imap (fun j => attempt {| Origin := Discovery; Result := r |}
                              (0 + j))
               (receiveAll (received rd) chs)) ->
          Origin m = Discovery /\
          1 <= len (Processes (Result m)) /\
          forall s,
            oracle.processes (oracle.handleMessage m s)
            = Processes (Result m) /\
            oracle.processes (oracle.handleMessage m s) <> None) as Hsent.
  { intros H. apply In_imap_attempt in H as ->. cbn [Origin Result].
    destruct (commonDiscoveryLoop_ok _ _ Hloop) as (_ & Hlen & ->).
    cbn [Processes]. split; [reflexivity | split; [exact Hlen |]].
    intros s. rewrite handleMessage_processes.
    unfold inbound_obs.isDiscovery. cbn. split; [reflexivity |].
    intros Hnil. rewrite Hnil in Hlen. cbn in Hlen. lia. }
  unfold logFull in Hin.
  destruct (wake rd); cbn [events] in Hin.
  - destruct Hin as [[=] | Hin].
    rewrite <- !app_assoc in Hin.
    apply in_app_or in Hin as [Hin | Hin]; [now apply Hsent |].
    apply in_app_or in Hin as [Hin | Hin].
    + destruct (0 <? _); [destruct Hin as [[=] | []] | destruct Hin].
    + destruct Hin as [[=] | []].
  - destruct Hin as [[=] | Hin].
    rewrite <- !app_assoc in Hin.
    apply in_app_or in Hin as [Hin | Hin]; [now apply Hsent |].
    apply in_app_or in Hin as [Hin | Hin].
    + destruct (0 <? _); [destruct Hin as [[=] | []] | destruct Hin].
    + destruct Hin as [[=] | Hin]. eapply IH. exact Hin.
Qed.

(** The message sent on the empty channel in a round that lists sshd and
    the Oracle monitor. *)
Lemma rounds_sent_witness :
  Origin samples.withOracle = Discovery /\
  1 <= len (Processes (Result samples.withOracle)).
Proof.
  destruct (rounds_sent [samples.goodRound] [samples.emptyChan] 0
              samples.withOracle) as (H1 & H2 & _).
  - cbn. right. left. reflexivity.
  - split; assumption.
Defined.

End FanOut.

(** ** The routines of the Oracle service *)

Section OracleRoutines.
Import servicecommunication oracle oracle_obs inbound_obs oracle_routines.
Import routine_obs.

Lemma scan_CloudProps ps s : CloudProps (scan ps s) = CloudProps s.
Proof.
  induction ps as [|p ps IH]; cbn [scan]; [reflexivity |].
  destruct (isOracleProcess p); [reflexivity | exact IH].
Qed.

Lemma inbound_CloudProps msgs : forall s,
  CloudProps (inbound msgs s) = CloudProps s.
Proof.
  induction msgs as [|msg msgs IH]; intros s; [reflexivity |].
  cbn. change (foldl _ ?s0 msgs) with (inbound msgs s0). rewrite IH.
  unfold handleMessage. destruct (Origin msg); try reflexivity.
  now rewrite scan_CloudProps.
Qed.

Lemma inbound_no_discovery msgs : forall s,
  (forall msg, In msg msgs -> isDiscovery msg = false) ->
  processes (inbound msgs s) = processes s.
Proof.
  induction msgs as [|msg msgs IH]; intros s Hno; [reflexivity |].
  cbn. change (foldl _ ?s0 msgs) with (inbound msgs s0).
  rewrite IH by (intros m Hm; apply Hno; now right).
  rewrite handleMessage_processes.
  now rewrite (Hno msg (or_introl eq_refl)).
Qed.

(** The read that follows a step is placed by what the step found. *)
Lemma waitingAfter_cons st rest waiting s :
  waitingAfter (st :: rest) waiting s
  = waitingAfter rest
      (match processes (inbound (arrivals st) s) with
       | None => true
       | Some _ => false
       end)
      (inbound (arrivals st) s).
Proof.
  unfold waitingAfter. cbn [fmap list_fmap concat]. rewrite inbound_app.
  destruct rest; [| reflexivity].
  cbn [fmap list_fmap concat]. reflexivity.
Qed.

(** The loop on a script in two parts: when the first part leaves the
    routine running, the second part goes on from the snapshot and the
    place of the loop the first part ended on; when the first part ends
    the routine, the second part is not looked at. *)
Lemma discoveryLoop_app pre : forall post waiting s,
  discoveryLoop (pre ++ post) waiting s
  = let r0 := discoveryLoop pre waiting s in
    let r := discoveryLoop post (waitingAfter pre waiting s)
               (inbound (concat (arrivals <$> pre)) s) in
    match r0.2 with
    | StillRunning => (r0.1 ++ r.1, r.2)
    | _ => r0
    end.
Proof.
  induction pre as [|st rest IH]; intros post waiting s.
  - cbn. now destruct (discoveryLoop post waiting s).
  - cbn zeta. rewrite waitingAfter_cons.
    cbn [fmap list_fmap concat]. rewrite inbound_app.
    cbn [app discoveryLoop].
    set (s1 := inbound (arrivals st) s).
    destruct waiting, (cancelled st), (processes s1) as [o|] eqn:Ho,
      (discoverErr st), (wake st); try reflexivity;
      rewrite IH; cbn zeta;
      destruct (discoveryLoop rest _ s1) as [evs [| |]]; reflexivity.
Qed.

(** One step of the loop calls [Discover] at most with the snapshot it
    has just read, and does call it when that snapshot is not nil, unless
    the waiting loop sees the context done. *)
Lemma discoveryLoop_step st waiting s :
  let s1 := inbound (arrivals st) s in
  (forall cp ps,
      In (Discover cp ps) (discoveryLoop [st] waiting s).1 ->
      cp = CloudProps s /\ ps = processes s1 /\ ps <> None) /\
  (processes s1 <> None -> waiting && cancelled st = false ->
   In (Discover (CloudProps s) (processes s1))
     (discoveryLoop [st] waiting s).1).
Proof.
  cbn zeta. cbn [discoveryLoop].
  rewrite <- (inbound_CloudProps (arrivals st) s).
  set (s1 := inbound (arrivals st) s).
  split.
  - intros cp ps Hin.
    destruct waiting, (cancelled st), (processes s1) as [o|] eqn:Ho,
      (discoverErr st), (wake st); cbn in Hin;
      repeat (destruct Hin as [Hin | Hin]);
      try discriminate Hin; try contradiction;
      injection Hin as <- <-; repeat split; congruence.
  - intros Hne Hc.
    destruct (processes s1) as [o|] eqn:Ho; [| congruence].
    destruct waiting, (cancelled st); try discriminate Hc;
      destruct (discoverErr st), (wake st); cbn; auto.
Qed.

(** X15.  [runDiscovery] discovers on the latest snapshot only.  Take a
    run that is still going after the steps [pre].  What the next step
    [st] adds to the trace is [tail], and later steps only add after it
    (nothing when [st] ends the routine).  Every call of [Discover] in
    [tail] is given the cloud properties of the service and the process
    list as the inbound handler left it after all the messages that
    arrived up to and in [st], not an earlier one, and that list is not
    nil.  Conversely, when that list is not nil, [Discover] is called in
    [tail], unless the step is a turn of the waiting loop that finds the
    context done. *)
Theorem runDiscovery_discover s pre st post :
  (runDiscovery (DiscoveryArgs s) pre).2 = StillRunning ->
  let latest :=
    processes (inbound (concat (arrivals <$> pre ++ [st])) s) in
  let before := (runDiscovery (DiscoveryArgs s) pre).1 in
  exists tail rest,
    (runDiscovery (DiscoveryArgs s) (pre ++ [st])).1 = before ++ tail /\
    (runDiscovery (DiscoveryArgs s) (pre ++ st :: post)).1
    = before ++ tail ++ rest /\
    ((runDiscovery (DiscoveryArgs s) (pre ++ [st])).2 <> StillRunning ->
     rest = []) /\
    (forall cp ps,
        In (Discover cp ps) tail ->
        cp = CloudProps s /\ ps = latest /\ ps <> None) /\
    (latest <> None ->
     waitingAfter pre false s && cancelled st = false ->
     In (Discover (CloudProps s) latest) tail).
Proof.
  cbn zeta. unfold runDiscovery.
  destruct (AsDuration (GetUpdateFrequency s) <=? 0)%Z; [discriminate |].
  change (st :: post) with ([st] ++ post).
  rewrite (discoveryLoop_app pre [st]), (discoveryLoop_app pre ([st] ++ post)).
  rewrite (discoveryLoop_app [st] post).
  cbn zeta.
  rewrite fmap_app, concat_app, inbound_app.
  cbn [fmap list_fmap concat]. rewrite app_nil_r.
  set (s' := inbound (concat (arrivals <$> pre)) s).
  set (w := waitingAfter pre false s).
  destruct (discoveryLoop pre false s) as [evs ex]. cbn [fst snd].
  intros ->.
  destruct (discoveryLoop_step st w s') as (Honly & Hdoes).
  rewrite (inbound_CloudProps _ s : CloudProps s' = CloudProps s) in *.
  set (r1 := discoveryLoop [st] w s') in *.
  exists r1.1,
    (match r1.2 with
     | StillRunning =>
         (discoveryLoop post (waitingAfter [st] w s')
            (inbound (concat (arrivals <$> [st])) s')).1
     | _ => []
     end).
  split; [reflexivity |].
  split; [destruct r1 as [e1 [| |]]; cbn; now rewrite ?app_nil_r |].
  split; [destruct r1 as [e1 [| |]]; cbn; congruence |].
  split; [exact Honly | exact Hdoes].
Qed.

(** The discovery made once the message has come during the sleep: on
    its two processes, and on nothing else. *)
Lemma runDiscovery_discover_witness :
  exists tail,
    (runDiscovery (DiscoveryArgs (samples.oracleService (Some true)))
       routine_samples.discoveryScript).1
    = [LogRunningDiscovery] ++ tail /\
    In (Discover (Some samples.cloudProperties)
          (Some [samples.sshd; samples.pmon])) tail /\
    forall cp ps,
      In (Discover cp ps) tail ->
      cp = Some samples.cloudProperties /\
      ps = Some [samples.sshd; samples.pmon].
Proof.
  destruct (runDiscovery_discover (samples.oracleService (Some true))
              [{| arrivals := []; cancelled := false; discoverErr := None;
                  wake := Tick |}]
              {| arrivals := [samples.withOracle]; cancelled := false;
                 discoverErr := None; wake := CtxDone |} [] eq_refl)
    as (tail & rest & Hrun & _ & _ & Honly & Hdoes).
  exists tail. split; [exact Hrun |]. split.
  - apply Hdoes; [discriminate | reflexivity].
  - intros cp ps Hin. destruct (Honly cp ps Hin) as (-> & -> & _).
    split; reflexivity.
Defined.

Lemma metricLoop_ticks n : forall rest,
  metricLoop (replicate n Tick ++ rest)
  = (concat (replicate n [SendHealthMetricsToCloudMonitoring;
                          SendDefaultMetricsToCloudMonitoring])
     ++ (metricLoop rest).1, (metricLoop rest).2).
Proof.
  induction n as [|n IH]; intros rest.
  - cbn. now destruct (metricLoop rest).
  - cbn [replicate app metricLoop concat]. rewrite IH. reflexivity.
Qed.

(** X16.  [runMetricCollection] sends on ticks only.  With a collector
    that initialises, [n] ticks followed by the cancellation of the
    context give [n] times the health metrics followed by the default
    metrics, and then nothing more; nothing is sent before the first
    tick.  With a collector that fails to initialise nothing is ever
    sent. *)
Theorem runMetricCollection_ticks s newErr n rest :
  (0 < AsDuration (GetCollectionFrequency s))%Z ->
  runMetricCollection (MetricCollectionArgs s) newErr
    (replicate n Tick ++ CtxDone :: rest)
  = match newErr with
    | Some e => ([LogRunningMetricCollection; LogInitFailed e], Returned)
    | None =>
        (LogRunningMetricCollection
           :: concat (replicate n [SendHealthMetricsToCloudMonitoring;
                                   SendDefaultMetricsToCloudMonitoring])
           ++ [LogMetricCollectionCancelled], Returned)
    end.
Proof.
  intros Hfreq. unfold runMetricCollection.
  destruct (Z.leb_spec (AsDuration (GetCollectionFrequency s)) 0);
    [lia |].
  destruct newErr; [reflexivity |].
  now rewrite metricLoop_ticks.
Qed.

(** Two ticks, then the cancellation; a third tick scripted after it is
    not served. *)
Lemma runMetricCollection_ticks_witness :
  runMetricCollection
    (MetricCollectionArgs (samples.oracleService (Some true))) None
    (replicate 2 Tick ++ CtxDone :: [Tick])
  = ([LogRunningMetricCollection;
      SendHealthMetricsToCloudMonitoring;
      SendDefaultMetricsToCloudMonitoring;
      SendHealthMetricsToCloudMonitoring;
      SendDefaultMetricsToCloudMonitoring;
      LogMetricCollectionCancelled], Returned).
Proof.
  apply (runMetricCollection_ticks (samples.oracleService (Some true))
           None 2 [Tick]).
  reflexivity.
Defined.

(** X17.  The period of the tickers.  A routine of the Oracle service
    whose frequency is unset, or set to a duration that is not positive,
    panics when it creates its ticker, before it discovers anything or
    creates its collector.  The process discovery, whose frequency
    defaults to three hours when unset, does not panic then. *)
Theorem routines_ticker_period :
  (forall s script,
      (GetUpdateFrequency s = None
       \/ AsDuration (GetUpdateFrequency s) <= 0)%Z ->
      runDiscovery (DiscoveryArgs s) script
      = ([LogRunningDiscovery], PanicNonPositiveInterval)) /\
  (forall s newErr script,
      (GetCollectionFrequency s = None
       \/ AsDuration (GetCollectionFrequency s) <= 0)%Z ->
      runMetricCollection (MetricCollectionArgs s) newErr script
      = ([LogRunningMetricCollection], PanicNonPositiveInterval)) /\
  (forall d chs script,
      cpb.GetCollectionFrequency
        (cpb.GetCommonDiscovery (discovery.Config d)) = None ->
      discovery.frequency d = (3 * Hour)%Z /\
      discovery.exit (discovery.CommonDiscovery d (discovery.ChanSlice chs)
                        script)
      <> discovery.PanicNonPositiveInterval).
Proof.
  split; [| split].
  - intros s script H. unfold runDiscovery.
    assert (AsDuration (GetUpdateFrequency s) <= 0)%Z as Hle.
    { destruct H as [-> | H]; [cbn; lia | exact H]. }
    apply Z.leb_le in Hle. now rewrite Hle.
  - intros s newErr script H. unfold runMetricCollection.
    assert (AsDuration (GetCollectionFrequency s) <= 0)%Z as Hle.
    { destruct H as [-> | H]; [cbn; lia | exact H]. }
    apply Z.leb_le in Hle. now rewrite Hle.
  - intros d chs script H. unfold discovery.CommonDiscovery.
    assert (discovery.frequency d = (3 * Hour)%Z) as Hf.
    { unfold discovery.frequency. now rewrite H. }
    split; [exact Hf |]. rewrite Hf.
    change ((3 * Hour <=? 0)%Z) with false. cbv iota. cbn [discovery.exit].
    generalize chs. induction script as [|rd script IH]; intros chs0;
      [discriminate |].
    cbn [discovery.rounds].
    destruct (discovery.commonDiscoveryLoop (discovery.listing rd))
      as [r [e|]]; [discriminate |].
    destruct (discovery.sendAll 0 r _ 0) as [[chs' sends] fullChs].
    destruct (discovery.wake rd); [discriminate | apply IH].
Qed.

(** A service with discovery and metrics enabled and no frequency. *)
Lemma routines_ticker_period_witness :
  runDiscovery (DiscoveryArgs routine_samples.noFrequency)
    routine_samples.discoveryScript
  = ([LogRunningDiscovery], PanicNonPositiveInterval) /\
  discovery.frequency samples.discoveryService = (3 * Hour)%Z.
Proof.
  destruct routines_ticker_period as (Hd & _ & Hc).
  split.
  - apply Hd. left. reflexivity.
  - apply (Hc samples.discoveryService [] []). reflexivity.
Defined.

End OracleRoutines.

(** ** The result set of the Postgres tests *)

Section FakeRows.
Import postgrestest.

Lemma wrap_small z :
  (- 2 ^ 63 <= z < 2 ^ 63)%Z -> wrap z = z.
Proof.
  intros H. unfold wrap. rewrite Z.mod_small; lia.
Qed.

Lemma readAll_from fuel : forall f,
  (0 <= count f)%Z ->
  (count f <= Z.max 0 (size f))%Z ->
  (size f < 2 ^ 63 - 1)%Z ->
  Z.to_nat (size f - count f) < fuel ->
  readAll fuel f = replicate (Z.to_nat (size f - count f)) (Scan f).
Proof.
  induction fuel as [|fuel IH]; intros f Hc0 Hcs Hsize Hfuel; [lia |].
  cbn [readAll Next]. rewrite wrap_small by lia.
  destruct (Z.leb_spec (count f + 1) (size f)) as [Hle | Hgt].
  - rewrite IH; cbn [count size]; try lia.
    replace (Z.to_nat (size f - count f))
      with (S (Z.to_nat (size f - (count f + 1)))) by lia.
    reflexivity.
  - replace (Z.to_nat (size f - count f)) with 0 by lia. reflexivity.
Qed.

(** X18.  The result set of the tests yields as many rows as its size
    says.  Read from a count of zero, a result set of size [n] gives [n]
    rows and then stops; each row scans to the data of the set, or to
    the test error when the set is told to fail. *)
Theorem workMemRows_readAll fuel f :
  count f = 0%Z ->
  (size f < 2 ^ 63 - 1)%Z ->
  Z.to_nat (size f) < fuel ->
  readAll fuel f
  = replicate (Z.to_nat (size f))
      (if shouldErr f then Err "test-error" else Ok (data f)).
Proof.
  intros Hc Hsize Hfuel.
  rewrite readAll_from; rewrite ?Hc, ?Z.sub_0_r; try lia.
  reflexivity.
Qed.

(** The one row "80MB" of the happy path. *)
Lemma workMemRows_readAll_witness :
  readAll 2 {| count := 0; size := 1; data := "80MB"; shouldErr := false |}
  = [Ok "80MB"].
Proof.
  apply (workMemRows_readAll 2
           {| count := 0; size := 1; data := "80MB"; shouldErr := false |});
    [reflexivity | reflexivity | cbn; lia].
Defined.

End FakeRows.
